(** * Commonwealth Connect pipeline: extract, transform, train, predict

    A shallow embedding of [extract.py], [transform.py], [train_model.py]
    and the prediction call of [app.py], with the properties of the
    pipeline stated and proved over it.

    Conventions.
    - A pandas [DataFrame] is the list of its rows, in index order; a row is
      a record with one field per column the scripts touch.
    - A nullable cell ([NaN], [NaT], [None], SQL [NULL]) is an [option].
    - A Python exception is a value of [exn]; a call either [Returned] a
      value or [Raised] an exception.  Nothing in the scripts catches one,
      so the first exception ends the run.
    - The SQLite file [commonwealth_connect.db] and the joblib file are the
      fields of [World]; every stage is a function on [World]. *)

From Stdlib Require Import ZArith NArith QArith List String Ascii Bool Lia Permutation Sorted.
Import ListNotations.
Local Open Scope Z_scope.

Set Implicit Arguments.

(** ** Exceptions and results *)

Inductive exn : Type :=
| RequestError (reason : string)   (* raised inside [pd.read_csv(url)]: URLError, HTTPError 401/403/5xx *)
| ValueError (msg : string)        (* pandas / scikit-learn argument checks *)
| DatabaseError (msg : string).    (* [pd.read_sql] on a table that does not exist *)

Inductive outcome (A : Type) : Type :=
| Returned (a : A)
| Raised (e : exn).
Arguments Returned {A} a.
Arguments Raised {A} e.

Definition bind {A B : Type} (m : outcome A) (k : A -> outcome B) : outcome B :=
  match m with
  | Returned a => k a
  | Raised e => Raised e
  end.

Notation "x <- m ;; k" := (bind m (fun x => k))
  (at level 61, m at next level, right associativity).

(** ** Data model *)

(** A pandas [Timestamp] (dtype [datetime64[ns]], no time zone): the number
    of nanoseconds since 1970-01-01 00:00:00. *)
Definition Timestamp : Type := Z.

(** The three columns [transform] parses as datetimes. *)
Inductive datetime_col : Type :=
| ticket_created_date_time
| ticket_closed_date_time
| ticket_last_updated_date_time.

Definition datetime_cols : list datetime_col :=
  [ticket_created_date_time; ticket_closed_date_time; ticket_last_updated_date_time].

(** One row of table [service_requests], seen the way
    [pd.read_sql(..., parse_dates=datetime_cols)] presents it: a timestamp
    cell that is NULL (or that [to_datetime] coerces to [NaT]) is [None]. *)
Record RawRecord : Type := {
  ticket_id : string;
  issue_category : option string;
  issue_type : option string;
  ticket_status : option string;
  lat : option Q;
  lng : option Q;
  created : option Timestamp;
  closed : option Timestamp;
  last_updated : option Timestamp
}.

Definition timestamp_of (col : datetime_col) (r : RawRecord) : option Timestamp :=
  match col with
  | ticket_created_date_time => created r
  | ticket_closed_date_time => closed r
  | ticket_last_updated_date_time => last_updated r
  end.

(** The six columns [f'{col}_date'], [..._year], [..._month], [..._day],
    [..._weekday], [..._hour] that [transform] adds for one datetime
    column. *)
Record DateParts : Type := {
  date_ : option (Z * Z * Z);
  year : option Z;
  month : option Z;
  day : option Z;
  weekday : option string;
  hour : option Z
}.

(** One row of table [service_requests_transformed]. *)
Record TransformedRecord : Type := {
  raw : RawRecord;
  created_parts : DateParts;
  closed_parts : DateParts;
  last_updated_parts : DateParts;
  created_str : option string;
  time_to_close_hours : option Q
}.

Definition parts_of (col : datetime_col) (t : TransformedRecord) : DateParts :=
  match col with
  | ticket_created_date_time => created_parts t
  | ticket_closed_date_time => closed_parts t
  | ticket_last_updated_date_time => last_updated_parts t
  end.

(** ** Extractor ([extract.py]) *)

Definition PAGE_SIZE : N := 50000%N.

(** A page as [pd.read_csv] returns it. *)
Definition Chunk : Type := list RawRecord.

(** The remote endpoint: what [pd.read_csv(url)] does for the URL built from
    [$limit] and [$offset]. *)
Definition Source : Type := N -> N -> outcome Chunk.

(** [chunk.empty] *)
Definition empty (chunk : Chunk) : bool :=
  match chunk with
  | [] => true
  | _ :: _ => false
  end.

(** The [while True] loop of [extract_all_csv], for an arbitrary page size.
    [fuel] bounds the number of requests; [None] means the bound was reached
    with the loop still running. *)
Fixpoint fetch_pages (fuel : nat) (page_size : N) (read_csv : Source)
         (offset : N) (chunks : list Chunk) : option (outcome (list Chunk)) :=
  match fuel with
  | O => None
  | S fuel' =>
      match read_csv page_size offset with
      | Raised e => Some (Raised e)
      | Returned chunk =>
          if empty chunk then Some (Returned chunks)
          else fetch_pages fuel' page_size read_csv (offset + page_size)%N (chunks ++ [chunk])
      end
  end.

(** [pd.concat(chunks, ignore_index=True)]: pandas raises on an empty list
    of frames. *)
Definition pd_concat (chunks : list Chunk) : outcome Chunk :=
  match chunks with
  | [] => Raised (ValueError "No objects to concatenate")
  | _ :: _ => Returned (List.concat chunks)
  end.

(** The fitted model that [joblib.dump] serialises: the one-hot encoder of
    the two categorical columns (the other columns pass through) and the
    random forest. *)
Inductive unknown_policy : Type := error | ignore.

(** A cell of a categorical column; [None] is NaN. *)
Definition cell : Type := option string.

Record OneHotEncoder : Type := {
  handle_unknown : unknown_policy;
  categories_ : list (list cell)      (* one list per encoded column, set by [fit] *)
}.

Inductive DecisionTree : Type :=
| Leaf (value : Q)
| Split (feature : nat) (threshold : Q) (left right : DecisionTree).

Record RandomForestRegressor : Type := {
  estimators_ : list DecisionTree
}.

Record Pipeline : Type := {
  preproc : OneHotEncoder;
  reg : RandomForestRegressor
}.

(** The files the scripts read and write: two tables of
    [commonwealth_connect.db] and [time_to_close_model.joblib].  [None] is a
    table or a file that does not exist yet. *)
Record World : Type := {
  service_requests : option (list RawRecord);
  service_requests_transformed : option (list TransformedRecord);
  time_to_close_model : option Pipeline
}.

(** [df.to_sql("service_requests", conn, if_exists="replace", index=False)] *)
Definition to_sql_service_requests (df : list RawRecord) (w : World)
  : World :=
  {| service_requests := Some df;
     service_requests_transformed := service_requests_transformed w;
     time_to_close_model := time_to_close_model w |}.

(** [extract_all_csv] for a page size: fetch every page, concatenate, and
    only then replace the table.  The world returned with a [Raised] is the
    one the exception left behind. *)
Definition extract_all (fuel : nat) (page_size : N) (read_csv : Source)
           (w : World) : option (outcome unit * World) :=
  match fetch_pages fuel page_size read_csv 0%N [] with
  | None => None
  | Some (Raised e) => Some (Raised e, w)
  | Some (Returned chunks) =>
      match pd_concat chunks with
      | Raised e => Some (Raised e, w)
      | Returned df => Some (Returned tt, to_sql_service_requests df w)
      end
  end.

Definition extract_all_csv (fuel : nat) : Source -> World ->
                                          option (outcome unit * World) :=
  extract_all fuel PAGE_SIZE.

(** A well-behaved endpoint over a fixed record set: the page at [offset] is
    the next [limit] records after the first [offset], fewer when fewer
    remain, none once the set is exhausted. *)
Definition soda_endpoint (records : list RawRecord) : Source :=
  fun limit offset =>
    Returned (firstn (N.to_nat limit) (skipn (N.to_nat offset) records)).

(** ** Transformer ([transform.py]) *)

(** Calendar arithmetic of the [.dt] accessor, on the proleptic Gregorian
    calendar. *)
Definition NS_PER_SECOND : Z := 1000000000.
Definition NS_PER_HOUR : Z := 3600 * NS_PER_SECOND.
Definition NS_PER_DAY : Z := 24 * NS_PER_HOUR.

Definition days_of (t : Timestamp) : Z := t / NS_PER_DAY.
Definition second_of_day (t : Timestamp) : Z := (t mod NS_PER_DAY) / NS_PER_SECOND.

(** Year, month and day of the day numbered [days] from 1970-01-01. *)
Definition civil_of_days (days : Z) : Z * Z * Z :=
  let z := days + 719468 in
  let era := z / 146097 in
  let doe := z - era * 146097 in
  let yoe := (doe - doe / 1460 + doe / 36524 - doe / 146096) / 365 in
  let doy := doe - (365 * yoe + yoe / 4 - yoe / 100) in
  let mp := (5 * doy + 2) / 153 in
  let d := doy - (153 * mp + 2) / 5 + 1 in
  let m := if mp <? 10 then mp + 3 else mp - 9 in
  let y := yoe + era * 400 in
  (if m <=? 2 then y + 1 else y, m, d).

Definition dt_date (t : Timestamp) : Z * Z * Z := civil_of_days (days_of t).
Definition dt_year (t : Timestamp) : Z := fst (fst (dt_date t)).
Definition dt_month (t : Timestamp) : Z := snd (fst (dt_date t)).
Definition dt_day (t : Timestamp) : Z := snd (dt_date t).
Definition dt_hour (t : Timestamp) : Z := second_of_day t / 3600.
Definition dt_minute (t : Timestamp) : Z := (second_of_day t / 60) mod 60.
Definition dt_second (t : Timestamp) : Z := second_of_day t mod 60.

(** [dt.day_name()]; 1970-01-01 was a Thursday. *)
Definition dt_day_name (t : Timestamp) : string :=
  match (days_of t + 3) mod 7 with
  | 0 => "Monday"
  | 1 => "Tuesday"
  | 2 => "Wednesday"
  | 3 => "Thursday"
  | 4 => "Friday"
  | 5 => "Saturday"
  | _ => "Sunday"
  end%string.

(** Decimal digits for [strftime]. *)
Definition digit (n : Z) : ascii := ascii_of_nat (48 + Z.to_nat (n mod 10)).

Definition pad2 (n : Z) : string :=
  String (digit (n / 10)) (String (digit n) EmptyString).

Definition pad4 (n : Z) : string :=
  String (digit (n / 1000)) (String (digit (n / 100)) (pad2 n)).

(** [strftime('%Y-%m-%d %H:%M:%S')] *)
Definition strftime (t : Timestamp) : string :=
  (pad4 (dt_year t) ++ "-" ++ pad2 (dt_month t) ++ "-" ++ pad2 (dt_day t) ++ " "
   ++ pad2 (dt_hour t) ++ ":" ++ pad2 (dt_minute t) ++ ":" ++ pad2 (dt_second t))%string.

(** The body of [for col in datetime_cols]: every accessor maps [NaT] to a
    missing value. *)
Definition derive_parts (ts : option Timestamp) : DateParts :=
  {| date_ := option_map dt_date ts;
     year := option_map dt_year ts;
     month := option_map dt_month ts;
     day := option_map dt_day ts;
     weekday := option_map dt_day_name ts;
     hour := option_map dt_hour ts |}.

(** [(closed - created).dt.total_seconds() / 3600.0]: a [Timedelta] is a
    number of nanoseconds, [NaT] when either operand is; the quotient is
    kept as an exact rational. *)
Definition hours_between (closed_at created_at : option Timestamp) : option Q :=
  match closed_at, created_at with
  | Some c, Some o => Some (Qmake (c - o) 1 / inject_Z NS_PER_HOUR)%Q
  | _, _ => None
  end.

Definition transform_row (r : RawRecord) : TransformedRecord :=
  {| raw := r;
     created_parts := derive_parts (timestamp_of ticket_created_date_time r);
     closed_parts := derive_parts (timestamp_of ticket_closed_date_time r);
     last_updated_parts := derive_parts (timestamp_of ticket_last_updated_date_time r);
     created_str := option_map strftime (created r);
     time_to_close_hours := hours_between (closed r) (created r) |}.

(** [pd.read_sql('SELECT * FROM service_requests', ...)] *)
Definition read_sql_service_requests (w : World) : outcome (list RawRecord) :=
  match service_requests w with
  | Some df => Returned df
  | None => Raised (DatabaseError "no such table: service_requests")
  end.

(** [df.to_sql('service_requests_transformed', conn, if_exists='replace', index=False)] *)
Definition to_sql_transformed (df : list TransformedRecord) (w : World)
  : World :=
  {| service_requests := service_requests w;
     service_requests_transformed := Some df;
     time_to_close_model := time_to_close_model w |}.

Definition transform (w : World) : outcome unit * World :=
  match read_sql_service_requests w with
  | Raised e => (Raised e, w)
  | Returned df => (Returned tt, to_sql_transformed (map transform_row df) w)
  end.

(** ** Trainer ([train_model.py]) *)

(** [pd.read_sql("SELECT * FROM service_requests_transformed", ...)] *)
Definition read_sql_transformed (w : World) : outcome (list TransformedRecord) :=
  match service_requests_transformed w with
  | Some df => Returned df
  | None => Raised (DatabaseError "no such table: service_requests_transformed")
  end.

Definition notna {A : Type} (c : option A) : bool :=
  match c with
  | Some _ => true
  | None => false
  end.

(** [df.dropna(subset=['ticket_closed_date_time','ticket_created_date_time'])] *)
Definition dropna (df : list TransformedRecord) : list TransformedRecord :=
  filter (fun t => notna (closed (raw t)) && notna (created (raw t))) df.

(** Step 3, [df['time_to_close_hours'] = (closed - created)...]: the column
    read from the table is overwritten with a value computed again from the
    two timestamps. *)
Definition assign_time_to_close_hours (t : TransformedRecord) : TransformedRecord :=
  {| raw := raw t;
     created_parts := created_parts t;
     closed_parts := closed_parts t;
     last_updated_parts := last_updated_parts t;
     created_str := created_str t;
     time_to_close_hours := hours_between (closed (raw t)) (created (raw t)) |}.

(** The frame the script holds after steps 2 and 3. *)
Definition training_frame (table : list TransformedRecord) : list TransformedRecord :=
  map assign_time_to_close_hours (dropna table).

(** A row of [X = df[features]], and of [X_pred] in [app.py]. *)
Record FeatureVector : Type := {
  x_issue_category : cell;
  x_weekday : cell;          (* ticket_created_date_time_weekday *)
  x_month : option Z;        (* ticket_created_date_time_month *)
  x_hour : option Z          (* ticket_created_date_time_hour *)
}.

Definition features (t : TransformedRecord) : FeatureVector :=
  {| x_issue_category := issue_category (raw t);
     x_weekday := weekday (created_parts t);
     x_month := month (created_parts t);
     x_hour := hour (created_parts t) |}.

Definition X_of (df : list TransformedRecord) : list FeatureVector := map features df.
Definition y_of (df : list TransformedRecord) : list (option Q) := map time_to_close_hours df.

(** *** The one-hot encoder *)

Definition cell_eqb (a b : cell) : bool :=
  match a, b with
  | Some x, Some y => String.eqb x y
  | None, None => true
  | _, _ => false
  end.

(** Order of [categories_]: strings in code-point order, NaN last. *)
Definition cell_leb (a b : cell) : bool :=
  match a, b with
  | Some x, Some y => String.leb x y
  | Some _, None => true
  | None, Some _ => false
  | None, None => true
  end.

Fixpoint insert_sorted (v : cell) (l : list cell) : list cell :=
  match l with
  | [] => [v]
  | c :: l' =>
      if cell_eqb v c then l
      else if cell_leb v c then v :: l
      else c :: insert_sorted v l'
  end.

(** The sorted distinct values of a column. *)
Definition unique (column : list cell) : list cell :=
  fold_right insert_sorted [] column.

Definition known (cats : list cell) (v : cell) : bool := existsb (cell_eqb v) cats.

Definition one_hot (cats : list cell) (v : cell) : list Q :=
  map (fun c => if cell_eqb c v then 1%Q else 0%Q) cats.

(** [OneHotEncoder.transform] on one column: a value outside [categories_]
    raises under [handle_unknown="error"] and is masked out under
    ["ignore"]. *)
Definition encode_column (policy : unknown_policy) (cats : list cell) (v : cell)
  : outcome (list Q) :=
  if known cats v then Returned (one_hot cats v)
  else match policy with
       | error => Raised (ValueError "Found unknown categories during transform")
       | ignore => Returned (one_hot cats v)
       end.

(** [ColumnTransformer([("cat", enc, [issue_category, weekday])],
    remainder='passthrough').transform]: the encoded blocks, then month and
    hour unchanged. *)
Definition column_transform (enc : OneHotEncoder) (x : FeatureVector)
  : outcome (list (option Q)) :=
  c1 <- encode_column (handle_unknown enc) (nth 0%nat (categories_ enc) []) (x_issue_category x) ;;
  c2 <- encode_column (handle_unknown enc) (nth 1%nat (categories_ enc) []) (x_weekday x) ;;
  Returned (map Some (c1 ++ c2)
            ++ [option_map inject_Z (x_month x); option_map inject_Z (x_hour x)]).

(** *** The regressor *)

(** A comparison with NaN is false, so a missing value goes right. *)
Fixpoint tree_predict (t : DecisionTree) (x : list (option Q)) : Q :=
  match t with
  | Leaf v => v
  | Split f thr l r =>
      match nth f x None with
      | Some v => if Qle_bool v thr then tree_predict l x else tree_predict r x
      | None => tree_predict r x
      end
  end.

Definition Qsum (l : list Q) : Q := fold_right Qplus 0%Q l.

(** The mean of the trees' predictions. *)
Definition forest_predict (f : RandomForestRegressor) (x : list (option Q)) : Q :=
  (Qsum (map (fun t => tree_predict t x) (estimators_ f))
   / inject_Z (Z.of_nat (List.length (estimators_ f))))%Q.

(** [model.predict] on one row. *)
Definition predict (model : Pipeline) (x : FeatureVector) : outcome Q :=
  v <- column_transform (preproc model) x ;;
  Returned (forest_predict (reg model) v).

Fixpoint map_outcome {A B : Type} (f : A -> outcome B) (l : list A) : outcome (list B) :=
  match l with
  | [] => Returned []
  | a :: l' => b <- f a ;; bs <- map_outcome f l' ;; Returned (b :: bs)
  end.

(** [X_pred] as [app.py] builds it from the sidebar widgets. *)
Definition X_pred (pred_cat pred_weekday : string) (pred_month pred_hour : Z)
  : FeatureVector :=
  {| x_issue_category := Some pred_cat;
     x_weekday := Some pred_weekday;
     x_month := Some pred_month;
     x_hour := Some pred_hour |}.

(** *** Split, fit, score, dump *)

(** Rows of a frame at the given positions, in the order of the positions. *)
Definition take {A : Type} (idx : list nat) (l : list A) : list A :=
  flat_map (fun i => match nth_error l i with
                     | Some a => [a]
                     | None => []
                     end) idx.

Section Train.
(** What the script takes from scikit-learn without fixing it in its own
    text: [ceil(0.2 * n_samples)] as the library rounds it, the shuffle
    drawn by [RandomState(42)], and the forest learner (seeded with 42). *)
Variable n_test_of : nat -> nat.
Variable permutation : nat -> list nat.
Variable fit_forest : list (list (option Q)) -> list (option Q) -> outcome RandomForestRegressor.

(** [train_test_split(X, y, test_size=0.2, random_state=42)]: the first
    [n_test] shuffled positions are the test set, the rest the training
    set; an empty training set is refused. *)
Definition train_test_split (X : list FeatureVector) (y : list (option Q))
  : outcome (list FeatureVector * list FeatureVector * list (option Q) * list (option Q)) :=
  let n_samples := List.length X in
  let n_test := n_test_of n_samples in
  let n_train := (n_samples - n_test)%nat in
  if (n_train =? 0)%nat then
    Raised (ValueError "the resulting train set will be empty")
  else
    let perm := permutation n_samples in
    let test := firstn n_test perm in
    let train := firstn n_train (skipn n_test perm) in
    Returned (take train X, take test X, take train y, take test y).

(** [model.fit(X_train, y_train)] for the pipeline of step 5. *)
Definition fit (X_train : list FeatureVector) (y_train : list (option Q))
  : outcome Pipeline :=
  let enc := {| handle_unknown := ignore;
                categories_ := [unique (map x_issue_category X_train);
                                unique (map x_weekday X_train)] |} in
  Xt <- map_outcome (column_transform enc) X_train ;;
  forest <- fit_forest Xt y_train ;;
  Returned {| preproc := enc; reg := forest |}.

(** [model.score(X_test, y_test)]: the value is only printed; what the
    run depends on is that every test row can be predicted. *)
Definition score (model : Pipeline) (X_test : list FeatureVector) : outcome unit :=
  _ <- map_outcome (predict model) X_test ;;
  Returned tt.

(** [joblib.dump(model, "time_to_close_model.joblib")] *)
Definition joblib_dump (model : Pipeline) (w : World) : World :=
  {| service_requests := service_requests w;
     service_requests_transformed := service_requests_transformed w;
     time_to_close_model := Some model |}.

(** Steps 5 to 7 on the frame of steps 2 to 4. *)
Definition fit_and_score (df : list TransformedRecord) : outcome Pipeline :=
  split <- train_test_split (X_of df) (y_of df) ;;
  let '(X_train, X_test, y_train, _) := split in
  model <- fit X_train y_train ;;
  _ <- score model X_test ;;
  Returned model.

(** The whole script. *)
Definition train_model (w : World) : outcome unit * World :=
  match read_sql_transformed w with
  | Raised e => (Raised e, w)
  | Returned table =>
      match fit_and_score (training_frame table) with
      | Raised e => (Raised e, w)
      | Returned model => (Returned tt, joblib_dump model w)
      end
  end.
End Train.

(** ** Sample data *)

Definition at_time (days hh mm : Z) : Timestamp :=
  days * NS_PER_DAY + (hh * 3600 + mm * 60) * NS_PER_SECOND.

(** 2025-03-14 is day 20161 after 1970-01-01. *)
Definition t_2025_03_14_0930 : Timestamp := at_time 20161 9 30.
Definition t_2025_03_14_1130 : Timestamp := at_time 20161 11 30.
Definition t_2025_03_16_0800 : Timestamp := at_time 20163 8 0.

Definition ticket (id : string) (category : string)
           (created_at closed_at : option Timestamp) : RawRecord :=
  {| ticket_id := id;
     issue_category := Some category;
     issue_type := None;
     ticket_status := None;
     lat := None;
     lng := None;
     created := created_at;
     closed := closed_at;
     last_updated := closed_at |}.

Definition closed_pothole : RawRecord :=
  ticket "1001" "Pothole" (Some t_2025_03_14_0930) (Some t_2025_03_14_1130).
Definition open_graffiti : RawRecord :=
  ticket "1002" "Graffiti" (Some t_2025_03_14_0930) None.
Definition closed_pickup : RawRecord :=
  ticket "1003" "Missed Recycling Pickup" (Some t_2025_03_14_1130) (Some t_2025_03_16_0800).
Definition backdated_light : RawRecord :=
  ticket "1004" "Street Light" (Some t_2025_03_14_1130) (Some t_2025_03_14_0930).
Definition undated_noise : RawRecord :=
  ticket "1005" "Noise" None None.

Definition five_tickets : list RawRecord :=
  [closed_pothole; open_graffiti; closed_pickup; backdated_light; undated_noise].

Definition fresh_world : World :=
  {| service_requests := None;
     service_requests_transformed := None;
     time_to_close_model := None |}.

Definition world_with_snapshot (snapshot : list RawRecord) : World :=
  {| service_requests := Some snapshot;
     service_requests_transformed := None;
     time_to_close_model := None |}.

(** An endpoint that serves [records] in pages but rejects the request at
    one offset. *)
Definition failing_endpoint (records : list RawRecord) (bad_offset : N) : Source :=
  fun limit offset =>
    if (offset =? bad_offset)%N then Raised (RequestError "HTTP Error 403: Forbidden")
    else soda_endpoint records limit offset.

(** Two nullable cells hold the same number. *)
Definition same_value (a b : option Q) : Prop :=
  match a, b with
  | Some p, Some q => (p == q)%Q
  | None, None => True
  | _, _ => False
  end.

(** A transformed row for the two-hour pothole whose stored duration says
    five hours. *)
Definition restated_pothole : TransformedRecord :=
  {| raw := closed_pothole;
     created_parts := derive_parts (created closed_pothole);
     closed_parts := derive_parts (closed closed_pothole);
     last_updated_parts := derive_parts (last_updated closed_pothole);
     created_str := option_map strftime (created closed_pothole);
     time_to_close_hours := Some 5%Q |}.

(** Ten tickets, seven closed and three still open. *)
Definition ten_tickets : list RawRecord :=
  [closed_pothole; open_graffiti; closed_pickup; closed_pothole; closed_pickup;
   open_graffiti; closed_pothole; closed_pickup; open_graffiti; closed_pothole].

Definition world_with_transformed (table : list TransformedRecord) : World :=
  {| service_requests := None;
     service_requests_transformed := Some table;
     time_to_close_model := None |}.

(** Stand-ins for the three library choices: the exact ceiling of a fifth,
    the reversal as shuffle, and a learner that grows one stump on the hour
    column (the last one) around the mean of the targets. *)
Definition exact_n_test (n : nat) : nat := ((n + 4) / 5)%nat.

Definition reversed (n : nat) : list nat := rev (seq 0 n).

Definition present (y : list (option Q)) : list Q :=
  flat_map (fun c => match c with Some q => [q] | None => [] end) y.

Definition stump_learner (Xt : list (list (option Q))) (y : list (option Q))
  : outcome RandomForestRegressor :=
  let width := List.length (hd [] Xt) in
  let mean := (Qsum (present y) / inject_Z (Z.of_nat (List.length (present y))))%Q in
  Returned {| estimators_ := [Split (width - 1) 12 (Leaf mean) (Leaf (mean + 1));
                              Leaf mean] |}.

(** The model trained on the five sample tickets, and the same model with
    the encoder switched to [handle_unknown="error"]. *)
Definition trained_world : World :=
  snd (train_model exact_n_test reversed stump_learner
                   (world_with_transformed (map transform_row five_tickets))).

Definition strict (model : Pipeline) : Pipeline :=
  {| preproc := {| handle_unknown := error;
                   categories_ := categories_ (preproc model) |};
     reg := reg model |}.

(** An endpoint that ignores [$offset] and serves the same page again and
    again. *)
Definition stuck_endpoint (page : Chunk) : Source :=
  fun _ _ => Returned page.

(** The day number of a date, the inverse of [civil_of_days]; it serves
    only to show that distinct days have distinct dates. *)
Definition days_of_civil (ymd : Z * Z * Z) : Z :=
  let '(y, m, d) := ymd in
  let y' := if m <=? 2 then y - 1 else y in
  let era := y' / 400 in
  let yoe := y' - era * 400 in
  let mp := if m <=? 2 then m + 9 else m - 3 in
  let doy := (153 * mp + 2) / 5 + d - 1 in
  let doe := yoe * 365 + yoe / 4 - yoe / 100 + doy in
  era * 146097 + doe - 719468.

Definition day_names : list string :=
  ["Monday"; "Tuesday"; "Wednesday"; "Thursday"; "Friday"; "Saturday"; "Sunday"]%string.

(** The strict order in which [unique] lists a column's values. *)
Definition cell_lt (a b : cell) : Prop := cell_leb a b = true /\ a <> b.


(** A small fitted pipeline: two categories, two weekdays, three trees. *)
Definition sample_pipeline : Pipeline :=
  {| preproc := {| handle_unknown := ignore;
                   categories_ := [[Some "Graffiti"; Some "Pothole"];
                                   [Some "Friday"; Some "Monday"]]%string |};
     reg := {| estimators_ := [Split 1 (1 # 2) (Leaf 4) (Leaf 30);
                               Split 5 12 (Leaf 2) (Leaf 48);
                               Leaf 10] |} |}.

(** ** Orchestration ([prefect_flow.py]) *)

(** What a task of the flow comes back with: the logs of its command, or
    the RuntimeError that [ShellOperation.run] raises when the command
    exits with a non-zero code, as a Python script does when an exception
    ends it.  [cause] is that exception. *)
Inductive task_run : Type :=
| Succeeded
| CommandFailed (command : string) (cause : exn).

(** [ShellOperation(commands=[command], return_all=True).run()] around a
    script. *)
Definition ShellOperation (command : string) (script : outcome unit * World)
  : task_run * World :=
  match script with
  | (Returned _, w) => (Succeeded, w)
  | (Raised e, w) => (CommandFailed command e, w)
  end.

Section Flow.
Variable n_test_of : nat -> nat.
Variable permutation : nat -> list nat.
Variable fit_forest : list (list (option Q)) -> list (option Q) -> outcome RandomForestRegressor.

Definition extract_data (fuel : nat) (read_csv : Source) (w : World)
  : option (task_run * World) :=
  option_map (ShellOperation "python extract.py") (extract_all_csv fuel read_csv w).

Definition transform_data (w : World) : task_run * World :=
  ShellOperation "python transform.py" (transform w).

(** The task the flow calls [train_model]. *)
Definition train_model_task (w : World) : task_run * World :=
  ShellOperation "python train_model.py" (train_model n_test_of permutation fit_forest w).

(** [etl_flow]: the three tasks in order; a task that raises ends the flow
    run, the tasks after it are not called. *)
Definition etl_flow (fuel : nat) (read_csv : Source) (w : World)
  : option (task_run * World) :=
  match extract_data fuel read_csv w with
  | None => None
  | Some (CommandFailed c e, w1) => Some (CommandFailed c e, w1)
  | Some (Succeeded, w1) =>
      match transform_data w1 with
      | (CommandFailed c e, w2) => (Some (CommandFailed c e, w2))
      | (Succeeded, w2) => Some (train_model_task w2)
      end
  end.
End Flow.

(** A database left by an earlier run: the transformed table and the model
    of the ten tickets, with a raw table of one. *)
Definition earlier_world : World :=
  {| service_requests := Some [undated_noise];
     service_requests_transformed := Some (map transform_row ten_tickets);
     time_to_close_model := Some sample_pipeline |}.

(** ** Dashboard ([app.py]) *)

(** The order of Python's [datetime.date]: by year, then month, then
    day. *)
Definition date_cmp (a b : Z * Z * Z) : comparison :=
  let '(y, m, d) := a in
  let '(y', m', d') := b in
  match y ?= y' with
  | Eq => match m ?= m' with
          | Eq => d ?= d'
          | c => c
          end
  | c => c
  end.

(** [a <= b] on dates *)
Definition date_leb (a b : Z * Z * Z) : bool :=
  match date_cmp a b with
  | Gt => false
  | _ => true
  end.

(** [df['ticket_status'].isin(selected_status)]; a missing status is in no
    list of strings. *)
Definition isin (values : list string) (c : cell) : bool :=
  match c with
  | Some s => existsb (String.eqb s) values
  | None => false
  end.

(** [(created.dt.date >= start_date) & (created.dt.date <= end_date)]; a
    comparison with a missing date is false. *)
Definition mask_date (start_date end_date : Z * Z * Z) (t : TransformedRecord) : bool :=
  match created (raw t) with
  | Some c => date_leb start_date (dt_date c) && date_leb (dt_date c) end_date
  | None => false
  end.

Definition mask_status (selected_status : list string) (t : TransformedRecord) : bool :=
  isin selected_status (ticket_status (raw t)).

(** The rows the page shows: under [if start_date > end_date] only an error
    message is drawn ([None]); otherwise [df.loc[mask_date & mask_status]]. *)
Definition filtered (df : list TransformedRecord) (start_date end_date : Z * Z * Z)
           (selected_status : list string) : option (list TransformedRecord) :=
  match date_cmp start_date end_date with
  | Gt => None
  | _ => Some (filter (fun t => mask_date start_date end_date t
                                && mask_status selected_status t) df)
  end.

(** The strings of a column, missing values left out. *)
Definition strings (column : list cell) : list string :=
  flat_map (fun c => match c with
                     | Some s => [s]
                     | None => []
                     end) column.

(** [sorted(df['issue_category'].dropna().unique())], the options of the
    category select box. *)
Definition category_options (df : list TransformedRecord) : list string :=
  strings (unique (filter notna (map (fun t => issue_category (raw t)) df))).

(** The ValueError of [list.index]. *)
Definition not_in_list (x : string) : exn :=
  ValueError ("'" ++ x ++ "' is not in list").

(** [list.index]: the first position of a value, ValueError when there is
    none. *)
Fixpoint index (x : string) (l : list string) : outcome nat :=
  match l with
  | [] => Raised (not_in_list x)
  | a :: l' =>
      if String.eqb a x then Returned 0%nat
      else i <- index x l' ;; Returned (S i)
  end.

(** The [index=] argument of the category select box. *)
Definition pred_cat_index (df : list TransformedRecord) : outcome nat :=
  index "Missed Recycling Pickup" (category_options df).

(** Two measures used to show that dates are in calendar order: a date as
    one number, and the year within a 400-year era. *)
Definition date_key (ymd : Z * Z * Z) : Z :=
  let '(y, m, d) := ymd in (y * 12 + m) * 32 + d.

Definition year_of_era (doe : Z) : Z :=
  (doe - doe / 1460 + doe / 36524 - doe / 146096) / 365.

Definition ticket_with_status (r : RawRecord) (status : string) : RawRecord :=
  {| ticket_id := ticket_id r;
     issue_category := issue_category r;
     issue_type := issue_type r;
     ticket_status := Some status;
     lat := lat r;
     lng := lng r;
     created := created r;
     closed := closed r;
     last_updated := last_updated r |}.

(** * Properties *)

(** ** Extractor *)

Section FetchLoop.
Variable page_size : N.
Hypothesis page_size_pos : (0 < page_size)%N.

Let p : nat := N.to_nat page_size.

Lemma skipn_next_page (records : list RawRecord) (offset : N) :
  skipn (N.to_nat (offset + page_size)) records
  = skipn p (skipn (N.to_nat offset) records).
Proof.
  rewrite N2Nat.inj_add, skipn_skipn. f_equal. subst p. lia.
Qed.

(** On a well-behaved endpoint the loop stops, and what it has collected
    is the records from [offset] on, cut into non-empty pages. *)
Lemma fetch_pages_soda (records : list RawRecord) :
  forall (fuel k : nat) (offset : N) (chunks : list Chunk),
    (List.length (skipn (N.to_nat offset) records) <= k * p)%nat ->
    (k < fuel)%nat ->
    exists rest,
      fetch_pages fuel page_size (soda_endpoint records) offset chunks
      = Some (Returned (chunks ++ rest))
      /\ List.concat rest = skipn (N.to_nat offset) records
      /\ Forall (fun c => c <> [] /\ (List.length c <= p)%nat) rest.
Proof.
  assert (Hp : (0 < p)%nat) by (subst p; lia).
  induction fuel as [|fuel IH]; intros k offset chunks Hlen Hk; [lia|].
  cbn [fetch_pages].
  change (soda_endpoint records page_size offset)
    with (Returned (firstn p (skipn (N.to_nat offset) records))).
  cbv beta iota.
  remember (skipn (N.to_nat offset) records) as remaining eqn:Hrem.
  destruct (firstn p remaining) as [|r chunk] eqn:Hpage; cbn [empty].
  - exists []. rewrite app_nil_r. repeat split; [|constructor].
    destruct remaining; [reflexivity|].
    destruct p; [lia|discriminate].
  - assert (Hnonempty : remaining <> []).
    { intros ->. rewrite firstn_nil in Hpage. discriminate. }
    assert (Hlen' : (List.length (skipn p remaining) = List.length remaining - p)%nat)
      by apply length_skipn.
    destruct k as [|k].
    { destruct remaining; [congruence|simpl in Hlen; lia]. }
    destruct (IH k (offset + page_size)%N (chunks ++ [r :: chunk])) as (rest & Hrun & Hcat & Hall).
    + rewrite skipn_next_page, <- Hrem. lia.
    + lia.
    + exists ((r :: chunk) :: rest).
      split; [|split].
      * etransitivity; [exact Hrun|]. now rewrite <- app_assoc.
      * change (List.concat ((r :: chunk) :: rest))
          with ((r :: chunk) ++ List.concat rest).
        rewrite Hcat, skipn_next_page, <- Hrem, <- Hpage.
        apply firstn_skipn.
      * constructor; [|exact Hall]. split; [discriminate|].
        rewrite <- Hpage, length_firstn. lia.
Qed.

(** A request that raises after [k] pages that came back non-empty ends
    the loop with its exception. *)
Lemma fetch_pages_raises (read_csv : Source) (e : exn) :
  forall (k fuel : nat) (offset : N) (chunks : list Chunk),
    (forall i, (i < k)%nat ->
               exists chunk, read_csv page_size (offset + N.of_nat i * page_size)%N
                             = Returned chunk /\ chunk <> []) ->
    read_csv page_size (offset + N.of_nat k * page_size)%N = Raised e ->
    (k < fuel)%nat ->
    fetch_pages fuel page_size read_csv offset chunks = Some (Raised e).
Proof.
  induction k as [|k IH]; intros fuel offset chunks Hok Hfail Hfuel;
    (destruct fuel as [|fuel]; [lia|]); simpl.
  - replace (offset + N.of_nat 0 * page_size)%N with offset in Hfail by lia.
    now rewrite Hfail.
  - destruct (Hok 0%nat) as (chunk & Hpage & Hne); [lia|].
    replace (offset + N.of_nat 0 * page_size)%N with offset in Hpage by lia.
    rewrite Hpage. destruct chunk; [congruence|]. simpl.
    apply IH.
    + intros i Hi. destruct (Hok (S i)) as (c & Hc & Hcne); [lia|].
      exists c. split; [|exact Hcne]. rewrite <- Hc. f_equal. lia.
    + rewrite <- Hfail. f_equal. lia.
    + lia.
Qed.
End FetchLoop.

(** The loop, the concatenation and the write together: a non-empty record
    set that fits in [k] pages is stored whole and in order after at most
    [k + 1] requests. *)
Lemma extract_all_complete (page_size : N) (records : list RawRecord)
      (k fuel : nat) (w : World) :
  (0 < page_size)%N ->
  records <> [] ->
  (List.length records <= k * N.to_nat page_size)%nat ->
  (k < fuel)%nat ->
  extract_all fuel page_size (soda_endpoint records) w
  = Some (Returned tt, to_sql_service_requests records w).
Proof.
  intros Hp Hne Hlen Hfuel. unfold extract_all.
  destruct (fetch_pages_soda Hp records (fuel := fuel) (k := k) 0%N [])
    as (rest & Hrun & Hcat & _); [exact Hlen|exact Hfuel|].
  rewrite Hrun. simpl in Hcat |- *.
  destruct rest as [|c rest]; [simpl in Hcat; congruence|].
  unfold pd_concat. now rewrite Hcat.
Qed.

Lemma extract_all_csv_complete (records : list RawRecord) (k fuel : nat) (w : World) :
  records <> [] ->
  (List.length records <= k * N.to_nat PAGE_SIZE)%nat ->
  (k < fuel)%nat ->
  extract_all_csv fuel (soda_endpoint records) w
  = Some (Returned tt, to_sql_service_requests records w).
Proof. apply extract_all_complete. reflexivity. Qed.

(** Three pages of two, two and one record: four requests. *)
Example extract_three_pages :
  extract_all 4 2 (soda_endpoint five_tickets) fresh_world
  = Some (Returned tt, world_with_snapshot five_tickets).
Proof. reflexivity. Qed.

Example extract_three_pages_short_of_fuel :
  extract_all 3 2 (soda_endpoint five_tickets) fresh_world = None.
Proof. reflexivity. Qed.

Example extract_one_page :
  extract_all_csv 2 (soda_endpoint five_tickets) fresh_world
  = Some (Returned tt, world_with_snapshot five_tickets).
Proof. vm_compute. reflexivity. Qed.

(** C1 (extraction is complete for every well-behaved source): the claim
    fails at the empty source.  Its only page holds zero records, so the
    concatenation of all pages is the empty table; [extract_all_csv] does
    not store it, it raises in [pd.concat] and the table keeps the two
    records of the previous run. *)
Theorem extract_all_csv_empty_source_raises :
  let previous := [closed_pothole; open_graffiti] in
  let w := world_with_snapshot previous in
  soda_endpoint [] PAGE_SIZE 0%N = Returned (List.concat [])
  /\ extract_all_csv 1 (soda_endpoint []) w
     = Some (Raised (ValueError "No objects to concatenate"), w)
  /\ extract_all_csv 7 (soda_endpoint []) w
     = Some (Raised (ValueError "No objects to concatenate"), w)
  /\ service_requests w <> Some (List.concat []).
Proof.
  cbv zeta. repeat split; try (vm_compute; reflexivity).
  vm_compute. discriminate.
Qed.

(** C2 (a failed page request leaves the table alone): when the request
    for page [k] raises after [k] non-empty pages, the run ends with that
    exception, and the world it leaves is the world it found, the raw
    table included: the write comes after the loop. *)
Theorem extract_all_csv_failed_request_keeps_snapshot
        (read_csv : Source) (k fuel : nat) (e : exn) (w : World) :
  (forall i, (i < k)%nat ->
             exists chunk, read_csv PAGE_SIZE (N.of_nat i * PAGE_SIZE)%N
                           = Returned chunk /\ chunk <> []) ->
  read_csv PAGE_SIZE (N.of_nat k * PAGE_SIZE)%N = Raised e ->
  (k < fuel)%nat ->
  exists w',
    extract_all_csv fuel read_csv w = Some (Raised e, w')
    /\ w' = w
    /\ service_requests w' = service_requests w.
Proof.
  intros Hok Hfail Hfuel. exists w.
  unfold extract_all_csv, extract_all.
  assert (Hrun : fetch_pages fuel PAGE_SIZE read_csv 0%N [] = Some (Raised e)).
  { apply fetch_pages_raises with (k := k); [reflexivity|exact Hok|exact Hfail|exact Hfuel]. }
  rewrite Hrun. auto.
Qed.

(** Whatever the exception and wherever it was raised, a run that raises
    returns the world it was given. *)
Lemma extract_all_raised_keeps_world (fuel : nat) (page_size : N)
      (read_csv : Source) (w w' : World) (e : exn) :
  extract_all fuel page_size read_csv w = Some (Raised e, w') -> w' = w.
Proof.
  unfold extract_all.
  destruct (fetch_pages fuel page_size read_csv 0%N []) as [[chunks|e']|];
    [|congruence|discriminate].
  destruct (pd_concat chunks); congruence.
Qed.

Lemma extract_all_csv_failed_request_witness :
  let read_csv := failing_endpoint five_tickets PAGE_SIZE in
  let w := world_with_snapshot [closed_pothole] in
  read_csv PAGE_SIZE (N.of_nat 1 * PAGE_SIZE)%N
  = Raised (RequestError "HTTP Error 403: Forbidden")
  /\ exists w',
       extract_all_csv 2 read_csv w
       = Some (Raised (RequestError "HTTP Error 403: Forbidden"), w')
       /\ w' = w
       /\ service_requests w' = service_requests w.
Proof.
  cbv zeta. split; [vm_compute; reflexivity|].
  apply (@extract_all_csv_failed_request_keeps_snapshot
           (failing_endpoint five_tickets PAGE_SIZE) 1 2).
  - intros i Hi. assert (i = 0)%nat as -> by lia.
    exists five_tickets. split; [vm_compute; reflexivity|discriminate].
  - vm_compute. reflexivity.
  - lia.
Defined.

(** The third of three pages is refused: nothing is written. *)
Example extract_third_page_refused :
  extract_all 5 2 (failing_endpoint five_tickets 4) (world_with_snapshot [closed_pothole])
  = Some (Raised (RequestError "HTTP Error 403: Forbidden"),
          world_with_snapshot [closed_pothole]).
Proof. reflexivity. Qed.

(** C9 (an empty source): when the first request returns zero records the
    loop ends with no page collected, [pd.concat] raises on the empty list,
    and the run stops before [to_sql]: no empty snapshot is written and the
    world, with whatever raw table it held, is unchanged. *)
Theorem extract_all_csv_empty_first_page
        (read_csv : Source) (fuel : nat) (w : World) :
  read_csv PAGE_SIZE 0%N = Returned [] ->
  (0 < fuel)%nat ->
  extract_all_csv fuel read_csv w
  = Some (Raised (ValueError "No objects to concatenate"), w)
  /\ (forall w', extract_all_csv fuel read_csv w <> Some (Returned tt, w')).
Proof.
  intros Hpage Hfuel. destruct fuel as [|fuel]; [lia|].
  assert (Hrun : extract_all_csv (S fuel) read_csv w
                 = Some (Raised (ValueError "No objects to concatenate"), w)).
  { unfold extract_all_csv, extract_all. cbn [fetch_pages]. rewrite Hpage. reflexivity. }
  split; [exact Hrun|]. intros w'. rewrite Hrun. discriminate.
Qed.

Lemma extract_all_csv_empty_first_page_witness :
  let w := world_with_snapshot five_tickets in
  soda_endpoint [] PAGE_SIZE 0%N = Returned []
  /\ extract_all_csv 3 (soda_endpoint []) w
     = Some (Raised (ValueError "No objects to concatenate"), w)
  /\ (forall w', extract_all_csv 3 (soda_endpoint []) w <> Some (Returned tt, w')).
Proof.
  cbv zeta. split; [vm_compute; reflexivity|].
  apply (@extract_all_csv_empty_first_page (soda_endpoint []) 3).
  - vm_compute. reflexivity.
  - lia.
Defined.

(** ** Transformer *)

Lemma derive_parts_missing :
  derive_parts None
  = {| date_ := None; year := None; month := None; day := None;
       weekday := None; hour := None |}.
Proof. reflexivity. Qed.

Lemma hours_between_open (created_at : option Timestamp) :
  hours_between None created_at = None.
Proof. reflexivity. Qed.

Lemma hours_between_uncreated (closed_at : option Timestamp) :
  hours_between closed_at None = None.
Proof. now destruct closed_at. Qed.

Lemma parts_of_transform_row (col : datetime_col) (r : RawRecord) :
  parts_of col (transform_row r) = derive_parts (timestamp_of col r).
Proof. now destruct col. Qed.

(** The row of the specification's example: created 2025-03-14 09:30:00. *)
Example transform_row_friday :
  let t := transform_row open_graffiti in
  weekday (created_parts t) = Some "Friday"%string
  /\ year (created_parts t) = Some 2025
  /\ month (created_parts t) = Some 3
  /\ day (created_parts t) = Some 14
  /\ hour (created_parts t) = Some 9
  /\ date_ (created_parts t) = Some (2025, 3, 14)
  /\ created_str t = Some "2025-03-14 09:30:00"%string
  /\ closed_parts t = derive_parts None
  /\ time_to_close_hours t = None.
Proof. vm_compute. repeat split. Qed.

Example transform_row_two_hours :
  match time_to_close_hours (transform_row closed_pothole) with
  | Some h => (h == 2)%Q
  | None => False
  end.
Proof. vm_compute. reflexivity. Qed.

(** C3 (the Transformer is a function of the raw table alone): two worlds
    that hold the same raw table, whatever else they hold, both have the
    same transformed table written; the raw table is left as it was; and a
    second run on the world the first one left returns the same outcome and
    the same world, table for table. *)
Theorem transform_deterministic (w1 w2 : World) (df : list RawRecord) :
  service_requests w1 = Some df ->
  service_requests w2 = Some df ->
  exists out,
    transform w1 = (Returned tt, to_sql_transformed out w1)
    /\ transform w2 = (Returned tt, to_sql_transformed out w2)
    /\ service_requests_transformed (snd (transform w1)) = Some out
    /\ service_requests_transformed (snd (transform w2)) = Some out
    /\ service_requests (snd (transform w1)) = Some df
    /\ transform (snd (transform w1)) = transform w1.
Proof.
  intros H1 H2. exists (map transform_row df).
  unfold transform, read_sql_service_requests.
  rewrite H1, H2. cbn. rewrite H1. repeat split; reflexivity.
Qed.

Lemma transform_deterministic_witness :
  let w1 := world_with_snapshot five_tickets in
  let w2 := {| service_requests := Some five_tickets;
               service_requests_transformed := Some [transform_row undated_noise];
               time_to_close_model := None |} in
  exists out,
    transform w1 = (Returned tt, to_sql_transformed out w1)
    /\ transform w2 = (Returned tt, to_sql_transformed out w2)
    /\ service_requests_transformed (snd (transform w1)) = Some out
    /\ service_requests_transformed (snd (transform w2)) = Some out
    /\ service_requests (snd (transform w1)) = Some five_tickets
    /\ transform (snd (transform w1)) = transform w1.
Proof.
  cbv zeta.
  apply (@transform_deterministic (world_with_snapshot five_tickets) _ five_tickets);
    reflexivity.
Defined.

(** Without a raw table the run raises and writes nothing, again and
    again. *)
Lemma transform_idempotent (w : World) :
  transform (snd (transform w)) = transform w.
Proof.
  unfold transform, read_sql_service_requests.
  destruct (service_requests w) as [df|] eqn:Hdf; cbn; now rewrite Hdf.
Qed.

(** C4 (a missing timestamp gives missing derived fields): in the table
    [transform] writes, the row of a raw record has, for each datetime
    column that is absent, all six calendar parts absent; and when the
    closure timestamp is absent, or the creation timestamp is,
    [time_to_close_hours] is absent, not zero and not negative. *)
Theorem transform_missing_timestamp_absent (w : World) (df : list RawRecord) :
  service_requests w = Some df ->
  exists out,
    transform w = (Returned tt, to_sql_transformed out w)
    /\ out = map transform_row df
    /\ forall r, In r df ->
         In (transform_row r) out
         /\ (forall col, timestamp_of col r = None ->
                         date_ (parts_of col (transform_row r)) = None
                         /\ year (parts_of col (transform_row r)) = None
                         /\ month (parts_of col (transform_row r)) = None
                         /\ day (parts_of col (transform_row r)) = None
                         /\ weekday (parts_of col (transform_row r)) = None
                         /\ hour (parts_of col (transform_row r)) = None)
         /\ (closed r = None -> time_to_close_hours (transform_row r) = None)
         /\ (created r = None ->
             time_to_close_hours (transform_row r) = None
             /\ created_str (transform_row r) = None).
Proof.
  intros Hdf. exists (map transform_row df).
  unfold transform, read_sql_service_requests. rewrite Hdf.
  split; [reflexivity|]. split; [reflexivity|].
  intros r Hin. split; [now apply in_map|]. split; [|split].
  - intros col Hcol. rewrite parts_of_transform_row, Hcol.
    repeat split; reflexivity.
  - intros Hclosed. cbn. rewrite Hclosed. apply hours_between_open.
  - intros Hcreated. cbn. rewrite Hcreated. split; [|reflexivity].
    apply hours_between_uncreated.
Qed.

Lemma transform_missing_timestamp_absent_witness :
  let w := world_with_snapshot five_tickets in
  exists out,
    transform w = (Returned tt, to_sql_transformed out w)
    /\ out = map transform_row five_tickets
    /\ forall r, In r five_tickets ->
         In (transform_row r) out
         /\ (forall col, timestamp_of col r = None ->
                         date_ (parts_of col (transform_row r)) = None
                         /\ year (parts_of col (transform_row r)) = None
                         /\ month (parts_of col (transform_row r)) = None
                         /\ day (parts_of col (transform_row r)) = None
                         /\ weekday (parts_of col (transform_row r)) = None
                         /\ hour (parts_of col (transform_row r)) = None)
         /\ (closed r = None -> time_to_close_hours (transform_row r) = None)
         /\ (created r = None ->
             time_to_close_hours (transform_row r) = None
             /\ created_str (transform_row r) = None).
Proof.
  cbv zeta.
  apply (@transform_missing_timestamp_absent (world_with_snapshot five_tickets) five_tickets).
  reflexivity.
Defined.

(** ** Trainer *)

Lemma notna_true {A : Type} (c : option A) : notna c = true <-> c <> None.
Proof. destruct c; simpl; split; congruence. Qed.

Lemma dropna_In (table : list TransformedRecord) (t : TransformedRecord) :
  In t (dropna table)
  <-> In t table /\ created (raw t) <> None /\ closed (raw t) <> None.
Proof.
  unfold dropna. rewrite filter_In, andb_true_iff, !notna_true. tauto.
Qed.

Lemma raw_training_frame (table : list TransformedRecord) :
  map raw (training_frame table) = map raw (dropna table).
Proof.
  unfold training_frame. rewrite map_map. reflexivity.
Qed.

(** The target is the duration computed again from the timestamps of the
    rows kept. *)
Lemma y_of_training_frame (table : list TransformedRecord) :
  y_of (training_frame table)
  = map (fun t => hours_between (closed (raw t)) (created (raw t))) (dropna table).
Proof.
  unfold y_of, training_frame. rewrite map_map. reflexivity.
Qed.

Lemma assign_transform_row (r : RawRecord) :
  assign_time_to_close_hours (transform_row r) = transform_row r.
Proof. reflexivity. Qed.

(** On rows that [transform_row] made, the computation of step 3 changes
    nothing. *)
Lemma assign_on_transformed (table : list TransformedRecord) :
  (forall t, In t table -> exists r, t = transform_row r) ->
  map assign_time_to_close_hours table = table.
Proof.
  induction table as [|t table IH]; intros Hall; [reflexivity|].
  simpl. destruct (Hall t) as (r & ->); [now left|].
  rewrite assign_transform_row, IH; [reflexivity|].
  intros t' Ht'. apply Hall. now right.
Qed.

Lemma training_frame_transformed (df : list RawRecord) :
  training_frame (map transform_row df) = dropna (map transform_row df).
Proof.
  unfold training_frame. apply assign_on_transformed.
  intros t Ht. apply dropna_In in Ht. destruct Ht as (Ht & _).
  apply in_map_iff in Ht. destruct Ht as (r & <- & _). now exists r.
Qed.

(** C5 as stated (the target is the stored column, never a recomputation)
    does not hold: for a table whose stored duration differs from the
    difference of its timestamps, the target is the difference. *)
Lemma trainer_target_is_not_the_stored_column :
  ~ (forall table : list TransformedRecord,
        Forall2 same_value (y_of (training_frame table)) (y_of (dropna table))).
Proof.
  intros Hclaim. specialize (Hclaim [restated_pothole]).
  vm_compute in Hclaim. inversion Hclaim as [|a b la lb Hsame _]; subst.
  discriminate Hsame.
Qed.

Example trainer_target_of_restated_pothole :
  Forall2 same_value (y_of (training_frame [restated_pothole])) [Some 2%Q]
  /\ y_of (dropna [restated_pothole]) = [Some 5%Q].
Proof.
  split; [|reflexivity].
  constructor; [vm_compute; reflexivity|constructor].
Qed.

(** C5, amended: the Trainer computes its target anew, for every row it
    keeps, as closure minus creation in hours, the formula of the
    Transformer, and takes nothing from the stored column; for a table
    written by the Transformer the two agree, so there the target is the
    stored [time_to_close_hours] column restricted to the rows with both
    timestamps. *)
Theorem trainer_target_recomputed :
  (forall table : list TransformedRecord,
      y_of (training_frame table)
      = map (fun t => hours_between (closed (raw t)) (created (raw t))) (dropna table))
  /\ (forall t : TransformedRecord,
        time_to_close_hours (assign_time_to_close_hours t)
        = time_to_close_hours (transform_row (raw t)))
  /\ (forall df : list RawRecord,
        y_of (training_frame (map transform_row df))
        = y_of (dropna (map transform_row df))).
Proof.
  split; [exact y_of_training_frame|]. split; [reflexivity|].
  intros df. now rewrite training_frame_transformed.
Qed.

(** *** Taking rows by position *)

Lemma take_app {A : Type} (i j : list nat) (l : list A) :
  take (i ++ j) l = take i l ++ take j l.
Proof. apply flat_map_app. Qed.

Lemma take_seq_suffix {A : Type} (l2 : list A) :
  forall l1 : list A, take (seq (List.length l1) (List.length l2)) (l1 ++ l2) = l2.
Proof.
  induction l2 as [|a l2 IH]; intros l1; [reflexivity|].
  cbn [List.length seq take flat_map].
  rewrite nth_error_app2, Nat.sub_diag by lia. cbn [nth_error app].
  f_equal. specialize (IH (l1 ++ [a])).
  rewrite length_app, <- app_assoc in IH. cbn in IH.
  rewrite Nat.add_1_r in IH. exact IH.
Qed.

Lemma take_seq {A : Type} (l : list A) : take (seq 0 (List.length l)) l = l.
Proof. exact (take_seq_suffix l []). Qed.

Lemma take_shuffle {A : Type} (idx : list nat) (l : list A) :
  Permutation idx (seq 0 (List.length l)) -> Permutation (take idx l) l.
Proof.
  intros Hperm. rewrite <- (take_seq l) at 2.
  unfold take. now apply Permutation_flat_map.
Qed.

Lemma dropna_none (table : list TransformedRecord) :
  (forall t, In t table -> created (raw t) = None \/ closed (raw t) = None) ->
  dropna table = [].
Proof.
  induction table as [|t table IH]; intros Hopen; [reflexivity|].
  unfold dropna in *. cbn [filter].
  destruct (Hopen t (or_introl eq_refl)) as [-> | ->];
    rewrite ?andb_false_r; cbn [notna andb]; apply IH;
    intros t' Ht'; apply Hopen; now right.
Qed.

(** *** The encoder *)

Lemma cell_eqb_eq (a b : cell) : cell_eqb a b = true <-> a = b.
Proof.
  destruct a as [x|], b as [y|]; simpl; try (split; congruence).
  rewrite String.eqb_eq. split; congruence.
Qed.

Lemma cell_eqb_sym (a b : cell) : cell_eqb a b = cell_eqb b a.
Proof.
  destruct a as [x|], b as [y|]; simpl; try reflexivity. apply String.eqb_sym.
Qed.

Lemma known_insert_sorted (v a : cell) (l : list cell) :
  known (insert_sorted a l) v = cell_eqb v a || known l v.
Proof.
  unfold known. induction l as [|c l IH]; [reflexivity|].
  cbn [insert_sorted]. destruct (cell_eqb a c) eqn:Hac.
  - apply cell_eqb_eq in Hac. subst c. cbn [existsb].
    now destruct (cell_eqb v a).
  - destruct (cell_leb a c); cbn [existsb]; [reflexivity|].
    rewrite IH. now destruct (cell_eqb v a), (cell_eqb v c).
Qed.

(** A value is among the fitted categories exactly when it occurs in the
    column the encoder was fitted on. *)
Lemma known_unique (column : list cell) (v : cell) :
  known (unique column) v = existsb (cell_eqb v) column.
Proof.
  induction column as [|a column IH]; [reflexivity|].
  unfold unique in *. cbn [fold_right existsb].
  now rewrite known_insert_sorted, IH.
Qed.

(** A value outside the categories is encoded as zeros. *)
Lemma one_hot_unknown (cats : list cell) (v : cell) :
  known cats v = false -> one_hot cats v = repeat 0%Q (List.length cats).
Proof.
  unfold known, one_hot. induction cats as [|c cats IH]; [reflexivity|].
  cbn [existsb map List.length repeat]. intros Hunknown.
  apply orb_false_iff in Hunknown. destruct Hunknown as (Hc & Hrest).
  rewrite cell_eqb_sym, Hc, IH by exact Hrest. reflexivity.
Qed.

Lemma encode_column_ignore (cats : list cell) (v : cell) :
  encode_column ignore cats v = Returned (one_hot cats v).
Proof. unfold encode_column. now destruct (known cats v). Qed.

Lemma encode_column_error_unknown (cats : list cell) (v : cell) :
  known cats v = false ->
  encode_column error cats v
  = Raised (ValueError "Found unknown categories during transform").
Proof. unfold encode_column. now intros ->. Qed.

Lemma predict_ignore (model : Pipeline) (x : FeatureVector) :
  handle_unknown (preproc model) = ignore ->
  exists q, predict model x = Returned q.
Proof.
  intros Hpolicy. unfold predict, column_transform.
  rewrite Hpolicy, !encode_column_ignore. cbn [bind]. eauto.
Qed.

Lemma bind_returned {A B : Type} (m : outcome A) (k : A -> outcome B) (b : B) :
  bind m k = Returned b -> exists a, m = Returned a /\ k a = Returned b.
Proof. destruct m as [a|e]; [eauto|discriminate]. Qed.

Lemma map_outcome_length {A B : Type} (f : A -> outcome B) (l : list A) :
  forall bs, map_outcome f l = Returned bs -> List.length bs = List.length l.
Proof.
  induction l as [|a l IH]; intros bs Hrun; cbn [map_outcome] in Hrun.
  - now injection Hrun as <-.
  - apply bind_returned in Hrun. destruct Hrun as (b & _ & Hrun).
    apply bind_returned in Hrun. destruct Hrun as (bs' & Hbs' & Hrun).
    injection Hrun as <-. cbn [List.length]. now rewrite (IH bs' Hbs').
Qed.

(** Scoring predicts every row it is given. *)
Lemma score_predicts (model : Pipeline) (X_test : list FeatureVector) (u : unit) :
  score model X_test = Returned u ->
  exists preds,
    map_outcome (predict model) X_test = Returned preds
    /\ List.length preds = List.length X_test.
Proof.
  unfold score. intros Hrun.
  apply bind_returned in Hrun. destruct Hrun as (preds & Hpreds & _).
  exists preds. split; [exact Hpreds|]. now apply map_outcome_length in Hpreds.
Qed.

Section TrainProperties.
Variable n_test_of : nat -> nat.
Variable permutation : nat -> list nat.
Variable fit_forest : list (list (option Q)) -> list (option Q) -> outcome RandomForestRegressor.

(** The shuffle is a rearrangement of the positions [0 .. n-1]. *)
Hypothesis permutation_shuffles :
  forall n, Permutation (permutation n) (seq 0 n).

(** A split that succeeds deals every row to one side or the other. *)
Lemma train_test_split_partition (X : list FeatureVector) (y : list (option Q))
      X_train X_test y_train y_test :
  List.length y = List.length X ->
  train_test_split n_test_of permutation X y
  = Returned (X_train, X_test, y_train, y_test) ->
  Permutation (X_train ++ X_test) X /\ Permutation (y_train ++ y_test) y.
Proof.
  intros Hlen. unfold train_test_split.
  set (n := List.length X). set (n_test := n_test_of n).
  destruct (n - n_test =? 0)%nat eqn:Hempty; [discriminate|].
  apply Nat.eqb_neq in Hempty.
  intros Hsplit. injection Hsplit as <- <- <- <-.
  assert (Hn : List.length (permutation n) = n).
  { rewrite (Permutation_length (permutation_shuffles n)). apply length_seq. }
  assert (Htrain : firstn (n - n_test) (skipn n_test (permutation n))
                   = skipn n_test (permutation n)).
  { apply firstn_all2. rewrite length_skipn. lia. }
  rewrite Htrain, <- !take_app.
  split; apply take_shuffle.
  - etransitivity; [apply Permutation_app_comm|].
    rewrite firstn_skipn. apply permutation_shuffles.
  - etransitivity; [apply Permutation_app_comm|].
    rewrite firstn_skipn, Hlen. apply permutation_shuffles.
Qed.

(** What [fit_and_score] does with a split: it fits on the training
    subset and scores on the held-out one. *)
Lemma fit_and_score_of_split (df : list TransformedRecord)
      X_train X_test y_train y_test :
  train_test_split n_test_of permutation (X_of df) (y_of df)
  = Returned (X_train, X_test, y_train, y_test) ->
  fit_and_score n_test_of permutation fit_forest df
  = (model <- fit fit_forest X_train y_train ;;
     _ <- score model X_test ;;
     Returned model).
Proof. unfold fit_and_score. now intros ->. Qed.

(** The learner is handed one encoded row per training row, and the
    training targets. *)
Lemma fit_learner (X_train : list FeatureVector) (y_train : list (option Q))
      (model : Pipeline) :
  fit fit_forest X_train y_train = Returned model ->
  exists Xt,
    map_outcome (column_transform (preproc model)) X_train = Returned Xt
    /\ List.length Xt = List.length X_train
    /\ fit_forest Xt y_train = Returned (reg model).
Proof.
  unfold fit. intros Hfit.
  apply bind_returned in Hfit. destruct Hfit as (Xt & HXt & Hfit).
  apply bind_returned in Hfit. destruct Hfit as (forest & Hforest & Hfit).
  injection Hfit as <-. exists Xt. cbn [preproc reg].
  split; [exact HXt|]. split; [|exact Hforest]. now apply map_outcome_length in HXt.
Qed.

(** C6 (the rows trained on are the rows with both timestamps): a row
    is kept by the filter exactly when it is in the table with creation
    and closure timestamps both present; the frame the split receives is
    those rows, in table order, none added and none lost.  When the split
    refuses them the script raises with nothing fitted.  Otherwise the
    split deals all of them, and nothing else, to the training and the
    evaluation subset; [fit] is run on the training subset, the learner
    being handed one encoded row for each of its rows together with its
    targets; [score] predicts each row of the evaluation subset; and the
    model written is the one so fitted. *)
Theorem trainer_uses_exactly_eligible_rows (w : World) (table : list TransformedRecord) :
  service_requests_transformed w = Some table ->
  (forall t, In t (dropna table)
             <-> In t table /\ created (raw t) <> None /\ closed (raw t) <> None)
  /\ map raw (training_frame table)
     = filter (fun r => notna (closed r) && notna (created r)) (map raw table)
  /\ match train_test_split n_test_of permutation
                            (X_of (training_frame table)) (y_of (training_frame table)) with
     | Raised e => train_model n_test_of permutation fit_forest w = (Raised e, w)
     | Returned (X_train, X_test, y_train, y_test) =>
         Permutation (X_train ++ X_test) (X_of (training_frame table))
         /\ Permutation (y_train ++ y_test) (y_of (training_frame table))
         /\ fit_and_score n_test_of permutation fit_forest (training_frame table)
            = (model <- fit fit_forest X_train y_train ;;
               _ <- score model X_test ;;
               Returned model)
         /\ (forall w',
                train_model n_test_of permutation fit_forest w = (Returned tt, w') ->
                exists model Xt preds,
                  time_to_close_model w' = Some model
                  /\ fit fit_forest X_train y_train = Returned model
                  /\ map_outcome (column_transform (preproc model)) X_train = Returned Xt
                  /\ List.length Xt = List.length X_train
                  /\ fit_forest Xt y_train = Returned (reg model)
                  /\ map_outcome (predict model) X_test = Returned preds
                  /\ List.length preds = List.length X_test)
     end.
Proof.
  intros Htable.
  split; [intros t; apply dropna_In|]. split.
  - clear Htable. rewrite raw_training_frame. unfold dropna.
    induction table as [|t table IH]; [reflexivity|].
    cbn [filter map]. destruct (notna (closed (raw t)) && notna (created (raw t)));
      cbn [map]; now rewrite IH.
  - destruct (train_test_split n_test_of permutation
                               (X_of (training_frame table)) (y_of (training_frame table)))
      as [[[[X_train X_test] y_train] y_test]|e] eqn:Hsplit.
    + pose proof (fit_and_score_of_split _ Hsplit) as Hrun.
      assert (Hlen : List.length (y_of (training_frame table))
                     = List.length (X_of (training_frame table)))
        by (unfold X_of, y_of; now rewrite !length_map).
      destruct (train_test_split_partition _ _ Hlen Hsplit) as (HX & Hy).
      split; [exact HX|]. split; [exact Hy|]. split; [exact Hrun|].
      intros w'. unfold train_model, read_sql_transformed. rewrite Htable, Hrun.
      destruct (fit fit_forest X_train y_train) as [model|e] eqn:Hfit;
        cbn [bind]; [|discriminate].
      destruct (score model X_test) as [u|e] eqn:Hscore; cbn [bind]; [|discriminate].
      intros Hdump. injection Hdump as <-.
      destruct (fit_learner _ _ Hfit) as (Xt & HXt & HXtlen & Hforest).
      destruct (score_predicts _ _ Hscore) as (preds & Hpreds & Hplen).
      exists model, Xt, preds. repeat split; assumption.
    + unfold train_model, read_sql_transformed, fit_and_score.
      rewrite Htable, Hsplit. reflexivity.
Qed.

(** The encoder of a fitted pipeline ignores unknown values, and its
    categories are the distinct values of the two training columns. *)
Lemma fit_encoder (X_train : list FeatureVector) (y_train : list (option Q))
      (model : Pipeline) :
  fit fit_forest X_train y_train = Returned model ->
  preproc model
  = {| handle_unknown := ignore;
       categories_ := [unique (map x_issue_category X_train);
                       unique (map x_weekday X_train)] |}.
Proof.
  unfold fit. intros Hfit.
  apply bind_returned in Hfit. destruct Hfit as (Xt & _ & Hfit).
  apply bind_returned in Hfit. destruct Hfit as (forest & _ & Hfit).
  now injection Hfit as <-.
Qed.

Lemma fit_and_score_encoder (df : list TransformedRecord) (model : Pipeline) :
  fit_and_score n_test_of permutation fit_forest df = Returned model ->
  exists X_train y_train, fit fit_forest X_train y_train = Returned model.
Proof.
  unfold fit_and_score. intros Hrun.
  apply bind_returned in Hrun. destruct Hrun as ([[[X_train X_test] y_train] y_test] & _ & Hrun).
  apply bind_returned in Hrun. destruct Hrun as (m & Hfit & Hrun).
  apply bind_returned in Hrun. destruct Hrun as (_u & _ & Hrun).
  injection Hrun as <-. eauto.
Qed.

(** A run that returns has written the model it fitted. *)
Lemma train_model_returned (w w' : World) :
  train_model n_test_of permutation fit_forest w = (Returned tt, w') ->
  exists table model,
    service_requests_transformed w = Some table
    /\ fit_and_score n_test_of permutation fit_forest (training_frame table)
       = Returned model
    /\ w' = joblib_dump model w.
Proof.
  unfold train_model, read_sql_transformed.
  destruct (service_requests_transformed w) as [table|]; [|discriminate].
  destruct (fit_and_score _ _ _ _) as [model|e] eqn:Hfit; [|discriminate].
  intros Hrun. injection Hrun as <-. eauto.
Qed.

(** C8 (no eligible row): when no row of the transformed table has both
    timestamps, the run stops in [train_test_split], which refuses the
    empty training set; the learner is never called, nothing is dumped,
    and the world is unchanged. *)
Theorem train_model_no_eligible_rows (w : World) (table : list TransformedRecord) :
  service_requests_transformed w = Some table ->
  (forall t, In t table -> created (raw t) = None \/ closed (raw t) = None) ->
  training_frame table = []
  /\ train_model n_test_of permutation fit_forest w
     = (Raised (ValueError "the resulting train set will be empty"), w)
  /\ time_to_close_model (snd (train_model n_test_of permutation fit_forest w))
     = time_to_close_model w.
Proof.
  intros Htable Hopen.
  assert (Hframe : training_frame table = []).
  { unfold training_frame. now rewrite (dropna_none table Hopen). }
  assert (Hrun : train_model n_test_of permutation fit_forest w
                 = (Raised (ValueError "the resulting train set will be empty"), w)).
  { unfold train_model, read_sql_transformed. rewrite Htable, Hframe. reflexivity. }
  rewrite Hrun. auto.
Qed.

(** C7 (a category unseen in training): the model a successful training
    run has written predicts every feature vector: [predict] returns a
    number and never raises.  A category, or a weekday, outside the
    encoder's fitted categories is encoded as a block of zeros. *)
Theorem predict_tolerates_unseen_category (w w' : World) :
  train_model n_test_of permutation fit_forest w = (Returned tt, w') ->
  exists model,
    time_to_close_model w' = Some model
    /\ handle_unknown (preproc model) = ignore
    /\ forall x : FeatureVector,
        (exists q, predict model x = Returned q)
        /\ (known (nth 0%nat (categories_ (preproc model)) []) (x_issue_category x)
            = false ->
            encode_column (handle_unknown (preproc model))
                          (nth 0%nat (categories_ (preproc model)) [])
                          (x_issue_category x)
            = Returned (repeat 0%Q (List.length
                                      (nth 0%nat (categories_ (preproc model)) []))))
        /\ (known (nth 1%nat (categories_ (preproc model)) []) (x_weekday x)
            = false ->
            encode_column (handle_unknown (preproc model))
                          (nth 1%nat (categories_ (preproc model)) [])
                          (x_weekday x)
            = Returned (repeat 0%Q (List.length
                                      (nth 1%nat (categories_ (preproc model)) [])))).
Proof.
  intros Hrun.
  destruct (train_model_returned _ Hrun) as (table & model & _ & Hfit & ->).
  destruct (fit_and_score_encoder _ Hfit) as (X_train & y_train & Hfitted).
  pose proof (fit_encoder _ _ Hfitted) as Henc.
  assert (Hpolicy : handle_unknown (preproc model) = ignore) by now rewrite Henc.
  exists model. split; [reflexivity|]. split; [exact Hpolicy|].
  intros x. split; [now apply predict_ignore|].
  rewrite Hpolicy.
  split; intros Hunknown;
    now rewrite encode_column_ignore, one_hot_unknown.
Qed.

End TrainProperties.

(** ** The properties on the sample data *)

Lemma reversed_shuffles (n : nat) : Permutation (reversed n) (seq 0 n).
Proof. unfold reversed. symmetry. apply Permutation_rev. Qed.

Lemma trainer_uses_exactly_eligible_rows_witness :
  let table := map transform_row ten_tickets in
  let w := world_with_transformed table in
  (forall n, Permutation (reversed n) (seq 0 n))
  /\ (forall t, In t (dropna table)
                <-> In t table /\ created (raw t) <> None /\ closed (raw t) <> None)
  /\ map raw (training_frame table)
     = filter (fun r => notna (closed r) && notna (created r)) (map raw table)
  /\ match train_test_split exact_n_test reversed
                            (X_of (training_frame table)) (y_of (training_frame table)) with
     | Raised e => train_model exact_n_test reversed stump_learner w = (Raised e, w)
     | Returned (X_train, X_test, y_train, y_test) =>
         Permutation (X_train ++ X_test) (X_of (training_frame table))
         /\ Permutation (y_train ++ y_test) (y_of (training_frame table))
         /\ fit_and_score exact_n_test reversed stump_learner (training_frame table)
            = (model <- fit stump_learner X_train y_train ;;
               _ <- score model X_test ;;
               Returned model)
         /\ (forall w',
                train_model exact_n_test reversed stump_learner w = (Returned tt, w') ->
                exists model Xt preds,
                  time_to_close_model w' = Some model
                  /\ fit stump_learner X_train y_train = Returned model
                  /\ map_outcome (column_transform (preproc model)) X_train = Returned Xt
                  /\ List.length Xt = List.length X_train
                  /\ stump_learner Xt y_train = Returned (reg model)
                  /\ map_outcome (predict model) X_test = Returned preds
                  /\ List.length preds = List.length X_test)
     end.
Proof.
  cbv zeta. split; [exact reversed_shuffles|].
  apply (@trainer_uses_exactly_eligible_rows exact_n_test reversed stump_learner
           reversed_shuffles
           (world_with_transformed (map transform_row ten_tickets))
           (map transform_row ten_tickets)).
  reflexivity.
Defined.

(** Seven of ten rows have both timestamps: seven rows are split, five to
    fit and two to evaluate. *)
Example seven_of_ten_rows_used :
  let frame := training_frame (map transform_row ten_tickets) in
  List.length frame = 7%nat
  /\ map raw frame = [closed_pothole; closed_pickup; closed_pothole; closed_pickup;
                      closed_pothole; closed_pickup; closed_pothole]
  /\ exists X_train X_test y_train y_test,
       train_test_split exact_n_test reversed (X_of frame) (y_of frame)
       = Returned (X_train, X_test, y_train, y_test)
       /\ List.length X_train = 5%nat /\ List.length X_test = 2%nat.
Proof.
  cbv zeta. split; [reflexivity|]. split; [reflexivity|].
  do 4 eexists. split; [vm_compute; reflexivity|]. split; reflexivity.
Qed.

Lemma train_model_no_eligible_rows_witness :
  let table := map transform_row [open_graffiti; undated_noise] in
  let w := world_with_transformed table in
  training_frame table = []
  /\ train_model exact_n_test reversed stump_learner w
     = (Raised (ValueError "the resulting train set will be empty"), w)
  /\ time_to_close_model (snd (train_model exact_n_test reversed stump_learner w))
     = time_to_close_model w.
Proof.
  cbv zeta.
  apply (@train_model_no_eligible_rows exact_n_test reversed stump_learner
           (world_with_transformed (map transform_row [open_graffiti; undated_noise]))
           (map transform_row [open_graffiti; undated_noise])).
  - reflexivity.
  - intros t [<- | [<- | []]]; [right | left]; reflexivity.
Defined.

(** One eligible row is refused as well: its only row would go to the test
    set. *)
Example train_model_one_eligible_row :
  fst (train_model exact_n_test reversed stump_learner
                   (world_with_transformed (map transform_row [closed_pothole; open_graffiti])))
  = Raised (ValueError "the resulting train set will be empty").
Proof. vm_compute. reflexivity. Qed.


(** C10 as stated (every such row is used for fitting) does not hold:
    of the three eligible sample tickets the split holds out one, and when
    that one is the backdated ticket the learner is fitted on the two
    others, whose targets are positive. *)
Lemma negative_duration_row_can_be_held_out :
  ~ (forall (df : list RawRecord) (r : RawRecord) (c d : Timestamp)
            X_train X_test y_train y_test,
        In r df ->
        created r = Some c ->
        closed r = Some d ->
        d < c ->
        train_test_split exact_n_test reversed
                         (X_of (training_frame (map transform_row df)))
                         (y_of (training_frame (map transform_row df)))
        = Returned (X_train, X_test, y_train, y_test) ->
        In (time_to_close_hours (transform_row r)) y_train).
Proof.
  intros Hclaim.
  specialize (Hclaim five_tickets backdated_light t_2025_03_14_1130 t_2025_03_14_0930
                     (X_of (map transform_row [closed_pickup; closed_pothole]))
                     (X_of (map transform_row [backdated_light]))
                     (y_of (map transform_row [closed_pickup; closed_pothole]))
                     (y_of (map transform_row [backdated_light]))).
  assert (Hheld : In (time_to_close_hours (transform_row backdated_light))
                     (y_of (map transform_row [closed_pickup; closed_pothole]))).
  { apply Hclaim; try reflexivity. simpl. tauto. }
  vm_compute in Hheld. destruct Hheld as [H | [H | []]]; discriminate H.
Qed.

(** The run over the five sample tickets: the backdated one is the row
    held out, the learner sees the two positive targets only. *)
Example backdated_light_held_out :
  let frame := training_frame (map transform_row five_tickets) in
  train_test_split exact_n_test reversed (X_of frame) (y_of frame)
  = Returned (X_of (map transform_row [closed_pickup; closed_pothole]),
              X_of (map transform_row [backdated_light]),
              y_of (map transform_row [closed_pickup; closed_pothole]),
              y_of (map transform_row [backdated_light]))
  /\ fit_and_score exact_n_test reversed stump_learner frame
     = (model <- fit stump_learner
                     (X_of (map transform_row [closed_pickup; closed_pothole]))
                     (y_of (map transform_row [closed_pickup; closed_pothole])) ;;
        _ <- score model (X_of (map transform_row [backdated_light])) ;;
        Returned model).
Proof. cbv zeta. split; reflexivity. Qed.

(** Without a shuffle the first row is held out and the backdated ticket
    is fitted on. *)
Example backdated_light_fitted_on :
  let frame := training_frame (map transform_row five_tickets) in
  train_test_split exact_n_test (seq 0) (X_of frame) (y_of frame)
  = Returned (X_of (map transform_row [closed_pickup; backdated_light]),
              X_of (map transform_row [closed_pothole]),
              y_of (map transform_row [closed_pickup; backdated_light]),
              y_of (map transform_row [closed_pothole])).
Proof. reflexivity. Qed.

Example backdated_light_minus_two_hours :
  same_value (time_to_close_hours (transform_row backdated_light)) (Some (-2)%Q).
Proof. vm_compute. reflexivity. Qed.

Lemma predict_tolerates_unseen_category_witness :
  let w := world_with_transformed (map transform_row five_tickets) in
  train_model exact_n_test reversed stump_learner w = (Returned tt, trained_world)
  /\ exists model,
      time_to_close_model trained_world = Some model
      /\ handle_unknown (preproc model) = ignore
      /\ forall x : FeatureVector,
          (exists q, predict model x = Returned q)
          /\ (known (nth 0%nat (categories_ (preproc model)) []) (x_issue_category x)
              = false ->
              encode_column (handle_unknown (preproc model))
                            (nth 0%nat (categories_ (preproc model)) [])
                            (x_issue_category x)
              = Returned (repeat 0%Q (List.length
                                        (nth 0%nat (categories_ (preproc model)) []))))
          /\ (known (nth 1%nat (categories_ (preproc model)) []) (x_weekday x)
              = false ->
              encode_column (handle_unknown (preproc model))
                            (nth 1%nat (categories_ (preproc model)) [])
                            (x_weekday x)
              = Returned (repeat 0%Q (List.length
                                        (nth 1%nat (categories_ (preproc model)) [])))).
Proof.
  cbv zeta. split; [vm_compute; reflexivity|].
  apply (@predict_tolerates_unseen_category exact_n_test reversed stump_learner
           (world_with_transformed (map transform_row five_tickets)) trained_world).
  vm_compute. reflexivity.
Defined.

(** "Sinkhole" occurs in no training row and "Street Light" only in the
    held-out row: both are encoded as zeros and predicted. *)
Example predict_sinkhole :
  exists model q,
    time_to_close_model trained_world = Some model
    /\ categories_ (preproc model)
       = [[Some "Missed Recycling Pickup"; Some "Pothole"]; [Some "Friday"]]%string
    /\ column_transform (preproc model) (X_pred "Sinkhole" "Friday" 3 9)
       = Returned [Some 0%Q; Some 0%Q; Some 1%Q; Some 3%Q; Some 9%Q]
    /\ predict model (X_pred "Sinkhole" "Friday" 3 9) = Returned q
    /\ (q == 93 # 4)%Q.
Proof.
  do 2 eexists. split; [vm_compute; reflexivity|].
  split; [reflexivity|]. split; [reflexivity|].
  split; [vm_compute; reflexivity|]. vm_compute. reflexivity.
Qed.

(** Under [handle_unknown="error"] the same request raises. *)
Example predict_sinkhole_strict :
  option_map (fun model => predict (strict model) (X_pred "Sinkhole" "Friday" 3 9))
             (time_to_close_model trained_world)
  = Some (Raised (ValueError "Found unknown categories during transform")).
Proof. vm_compute. reflexivity. Qed.

(** * Further properties of the scripts *)

(** ** [extract.py] *)

(** What a loop that returns has collected: the pages at the successive
    offsets, each non-empty, up to the first empty one. *)
Lemma fetch_pages_returned (page_size : N) (read_csv : Source) :
  forall (fuel : nat) (offset : N) (chunks result : list Chunk),
    fetch_pages fuel page_size read_csv offset chunks = Some (Returned result) ->
    exists pages,
      result = chunks ++ pages
      /\ (forall i, (i < List.length pages)%nat ->
                    read_csv page_size (offset + N.of_nat i * page_size)%N
                    = Returned (nth i pages [])
                    /\ nth i pages [] <> [])
      /\ read_csv page_size (offset + N.of_nat (List.length pages) * page_size)%N
         = Returned [].
Proof.
  induction fuel as [|fuel IH]; intros offset chunks result Hrun; [discriminate|].
  cbn [fetch_pages] in Hrun.
  destruct (read_csv page_size offset) as [chunk|e] eqn:Hpage; [|discriminate].
  destruct chunk as [|r chunk]; cbn [empty] in Hrun.
  - injection Hrun as <-. exists []. rewrite app_nil_r. split; [reflexivity|].
    split; [intros i Hi; inversion Hi|].
    cbn [List.length]. now rewrite N.mul_0_l, N.add_0_r.
  - apply IH in Hrun. destruct Hrun as (pages & -> & Hpages & Hlast).
    exists ((r :: chunk) :: pages). rewrite <- app_assoc. split; [reflexivity|]. split.
    + intros [|i] Hi.
      * cbn [nth]. rewrite N.mul_0_l, N.add_0_r. split; [exact Hpage|discriminate].
      * cbn [nth]. cbn [List.length] in Hi.
        destruct (Hpages i) as (Hi1 & Hi2); [lia|]. split; [|exact Hi2].
        rewrite <- Hi1. f_equal. lia.
    + rewrite <- Hlast. f_equal. cbn [List.length]. lia.
Qed.

(** X1: on a well-behaved endpoint over a non-empty record set that fits
    in [k] pages, [k + 1] requests are enough; the run returns, the raw
    table is exactly the record set in source order, whatever it held
    before, and the transformed table and the model file are not touched. *)
Theorem extract_all_csv_stores_every_record
        (records : list RawRecord) (k fuel : nat) (w : World) :
  records <> [] ->
  (List.length records <= k * N.to_nat PAGE_SIZE)%nat ->
  (k < fuel)%nat ->
  exists w',
    extract_all_csv fuel (soda_endpoint records) w = Some (Returned tt, w')
    /\ service_requests w' = Some records
    /\ service_requests_transformed w' = service_requests_transformed w
    /\ time_to_close_model w' = time_to_close_model w.
Proof.
  intros Hne Hlen Hfuel. exists (to_sql_service_requests records w).
  split; [|repeat split].
  unfold extract_all_csv. now apply extract_all_complete with (k := k).
Qed.

Lemma extract_all_csv_stores_every_record_witness :
  let w := world_with_snapshot [undated_noise] in
  exists w',
    extract_all_csv 2 (soda_endpoint five_tickets) w = Some (Returned tt, w')
    /\ service_requests w' = Some five_tickets
    /\ service_requests_transformed w' = service_requests_transformed w
    /\ time_to_close_model w' = time_to_close_model w.
Proof.
  cbv zeta.
  apply (@extract_all_csv_stores_every_record five_tickets 1 2).
  - discriminate.
  - apply Nat.leb_le. vm_compute. reflexivity.
  - lia.
Defined.

(** A run that returns, for any page size. *)
Lemma extract_all_returned (fuel : nat) (page_size : N) (read_csv : Source)
      (w w' : World) :
  extract_all fuel page_size read_csv w = Some (Returned tt, w') ->
  exists pages,
    pages <> []
    /\ (forall i, (i < List.length pages)%nat ->
                  read_csv page_size (N.of_nat i * page_size)%N = Returned (nth i pages [])
                  /\ nth i pages [] <> [])
    /\ read_csv page_size (N.of_nat (List.length pages) * page_size)%N = Returned []
    /\ service_requests w' = Some (List.concat pages)
    /\ List.concat pages <> []
    /\ service_requests_transformed w' = service_requests_transformed w
    /\ time_to_close_model w' = time_to_close_model w.
Proof.
  unfold extract_all. intros Hrun.
  destruct (fetch_pages fuel page_size read_csv 0%N []) as [[result|e]|] eqn:Hloop;
    [|discriminate|discriminate].
  destruct (fetch_pages_returned _ _ _ _ _ Hloop) as (pages & -> & Hpages & Hlast).
  cbn [app] in Hrun. destruct pages as [|page pages]; [discriminate|].
  cbn [pd_concat] in Hrun. injection Hrun as <-.
  exists (page :: pages). split; [discriminate|]. split; [exact Hpages|].
  split; [exact Hlast|]. split; [reflexivity|]. split; [|split; reflexivity].
  destruct (Hpages 0%nat) as (_ & Hfirst); [cbn; lia|].
  cbn in Hfirst |- *. destruct page; [congruence|discriminate].
Qed.

(** X2: whatever the endpoint does, a run that returns has stored the
    concatenation of the pages it was served at offsets 0, PAGE_SIZE,
    2 * PAGE_SIZE, ..., all of them non-empty and followed by an empty
    page; the stored table is never empty, and the other table and the
    model file are as before. *)
Theorem extract_all_csv_returned
        (fuel : nat) (read_csv : Source) (w w' : World) :
  extract_all_csv fuel read_csv w = Some (Returned tt, w') ->
  exists pages,
    pages <> []
    /\ (forall i, (i < List.length pages)%nat ->
                  read_csv PAGE_SIZE (N.of_nat i * PAGE_SIZE)%N = Returned (nth i pages [])
                  /\ nth i pages [] <> [])
    /\ read_csv PAGE_SIZE (N.of_nat (List.length pages) * PAGE_SIZE)%N = Returned []
    /\ service_requests w' = Some (List.concat pages)
    /\ List.concat pages <> []
    /\ service_requests_transformed w' = service_requests_transformed w
    /\ time_to_close_model w' = time_to_close_model w.
Proof. apply extract_all_returned. Qed.

Lemma extract_all_csv_returned_witness :
  let w := world_with_snapshot [undated_noise] in
  let w' := world_with_snapshot five_tickets in
  extract_all_csv 2 (soda_endpoint five_tickets) w = Some (Returned tt, w')
  /\ exists pages,
      pages <> []
      /\ (forall i, (i < List.length pages)%nat ->
                    soda_endpoint five_tickets PAGE_SIZE (N.of_nat i * PAGE_SIZE)%N
                    = Returned (nth i pages [])
                    /\ nth i pages [] <> [])
      /\ soda_endpoint five_tickets PAGE_SIZE (N.of_nat (List.length pages) * PAGE_SIZE)%N
         = Returned []
      /\ service_requests w' = Some (List.concat pages)
      /\ List.concat pages <> []
      /\ service_requests_transformed w' = service_requests_transformed w
      /\ time_to_close_model w' = time_to_close_model w.
Proof.
  cbv zeta. split; [vm_compute; reflexivity|].
  apply (@extract_all_csv_returned 2 (soda_endpoint five_tickets)
           (world_with_snapshot [undated_noise]) (world_with_snapshot five_tickets)).
  vm_compute. reflexivity.
Defined.

Lemma fetch_pages_endless (page_size : N) (read_csv : Source) :
  (forall offset, exists chunk,
        read_csv page_size offset = Returned chunk /\ chunk <> []) ->
  forall (fuel : nat) (offset : N) (chunks : list Chunk),
    fetch_pages fuel page_size read_csv offset chunks = None.
Proof.
  intros Hpages. induction fuel as [|fuel IH]; intros offset chunks; [reflexivity|].
  cbn [fetch_pages]. destruct (Hpages offset) as (chunk & -> & Hne).
  destruct chunk; [congruence|]. cbn [empty]. apply IH.
Qed.

(** X3: the loop has no bound of its own.  On an endpoint whose pages never
    come back empty (one that ignores the offset, say) no number of
    requests ends the run: it neither returns nor raises, and nothing is
    written. *)
Theorem extract_all_csv_never_ends (read_csv : Source) (w : World) (fuel : nat) :
  (forall offset, exists chunk,
        read_csv PAGE_SIZE offset = Returned chunk /\ chunk <> []) ->
  extract_all_csv fuel read_csv w = None.
Proof.
  intros Hpages. unfold extract_all_csv, extract_all.
  now rewrite (fetch_pages_endless PAGE_SIZE read_csv Hpages).
Qed.

Lemma extract_all_csv_never_ends_witness :
  extract_all_csv 1000 (stuck_endpoint five_tickets) fresh_world = None.
Proof.
  apply (@extract_all_csv_never_ends (stuck_endpoint five_tickets) fresh_world 1000).
  intros offset. exists five_tickets. split; [reflexivity|discriminate].
Defined.

(** ** [transform.py] *)

Ltac euclid := Z.div_mod_to_equations; lia.

Lemma day_of_era_range (z : Z) : 0 <= z - z / 146097 * 146097 < 146097.
Proof. euclid. Qed.

Lemma civil_of_days_range (days : Z) :
  1 <= snd (fst (civil_of_days days)) <= 12
  /\ 1 <= snd (civil_of_days days) <= 31.
Proof.
  unfold civil_of_days. cbv zeta.
  pose proof (day_of_era_range (days + 719468)) as Hdoe.
  set (doe := days + 719468 - (days + 719468) / 146097 * 146097) in *.
  clearbody doe.
  set (yoe := (doe - doe / 1460 + doe / 36524 - doe / 146096) / 365).
  set (doy := doe - (365 * yoe + yoe / 4 - yoe / 100)).
  assert (Hdoy : 0 <= doy <= 365) by (subst doy yoe; euclid).
  clearbody doy.
  set (mp := (5 * doy + 2) / 153).
  assert (Hmp : 0 <= mp <= 11) by (subst mp; euclid).
  assert (Hd : 1 <= doy - (153 * mp + 2) / 5 + 1 <= 31) by (subst mp; euclid).
  cbn [fst snd].
  destruct (mp <? 10) eqn:Hlt; [apply Z.ltb_lt in Hlt|apply Z.ltb_ge in Hlt]; lia.
Qed.

Lemma days_of_civil_of_days (days : Z) : days_of_civil (civil_of_days days) = days.
Proof.
  unfold civil_of_days, days_of_civil. cbv zeta.
  pose proof (day_of_era_range (days + 719468)) as Hdoe.
  set (era := (days + 719468) / 146097) in *.
  set (doe := days + 719468 - era * 146097) in *.
  assert (Hdays : days = era * 146097 + doe - 719468) by (subst doe; lia).
  clearbody doe. clearbody era.
  set (yoe := (doe - doe / 1460 + doe / 36524 - doe / 146096) / 365).
  assert (Hyoe : 0 <= yoe <= 399) by (subst yoe; euclid).
  set (doy := doe - (365 * yoe + yoe / 4 - yoe / 100)).
  assert (Hdoy : 0 <= doy <= 365) by (subst doy yoe; euclid).
  assert (Hsum : doe = yoe * 365 + yoe / 4 - yoe / 100 + doy) by (subst doy; lia).
  clearbody doy. clearbody yoe.
  set (mp := (5 * doy + 2) / 153).
  assert (Hmp : 0 <= mp <= 11) by (subst mp; euclid).
  set (d := doy - (153 * mp + 2) / 5 + 1).
  assert (Hd : doy = (153 * mp + 2) / 5 + d - 1) by (subst d; lia).
  clearbody d. clearbody mp.
  assert (Hera : (yoe + era * 400) / 400 = era) by euclid.
  destruct (mp <? 10) eqn:Hlt; [apply Z.ltb_lt in Hlt|apply Z.ltb_ge in Hlt].
  - destruct (mp + 3 <=? 2) eqn:H2; [apply Z.leb_le in H2; lia|].
    replace (mp + 3 - 3) with mp by lia.
    rewrite Hera. replace (yoe + era * 400 - era * 400) with yoe by lia. lia.
  - destruct (mp - 9 <=? 2) eqn:H2; [|apply Z.leb_gt in H2; lia].
    replace (mp - 9 + 9) with mp by lia.
    replace (yoe + era * 400 + 1 - 1) with (yoe + era * 400) by lia.
    rewrite Hera. replace (yoe + era * 400 - era * 400) with yoe by lia. lia.
Qed.

Lemma dt_hour_range (t : Timestamp) : 0 <= dt_hour t <= 23.
Proof.
  unfold dt_hour, second_of_day, NS_PER_DAY, NS_PER_HOUR, NS_PER_SECOND. euclid.
Qed.

Lemma dt_day_name_In (t : Timestamp) : In (dt_day_name t) day_names.
Proof.
  unfold dt_day_name.
  assert (H : 0 <= (days_of t + 3) mod 7 < 7) by (apply Z.mod_pos_bound; lia).
  destruct ((days_of t + 3) mod 7) as [|n|n]; [simpl; tauto| |lia].
  do 6 (destruct n as [n|n|]; try lia; try (simpl; tauto)).
Qed.

(** X4: for a timestamp that is present, all six derived parts are
    present, the date is (year, month, day), the month lies in 1..12, the
    day in 1..31, the hour in 0..23, and the weekday is one of the seven
    English day names. *)
Theorem derive_parts_present (ts : Timestamp) :
  exists y m d wd h,
    derive_parts (Some ts)
    = {| date_ := Some (y, m, d); year := Some y; month := Some m; day := Some d;
         weekday := Some wd; hour := Some h |}
    /\ 1 <= m <= 12
    /\ 1 <= d <= 31
    /\ 0 <= h <= 23
    /\ In wd day_names.
Proof.
  exists (dt_year ts), (dt_month ts), (dt_day ts), (dt_day_name ts), (dt_hour ts).
  split.
  - unfold derive_parts, dt_year, dt_month, dt_day. cbn [option_map].
    now destruct (dt_date ts) as [[y m] d].
  - pose proof (civil_of_days_range (days_of ts)) as (Hm & Hd).
    repeat split; try apply Hm; try apply Hd; try apply dt_hour_range.
    apply dt_day_name_In.
Qed.

(** X5: the date part tells the day: two timestamps get the same
    [_date] exactly when they fall on the same day, that is, when they
    agree after division by the nanoseconds of a day. *)
Theorem dt_date_same_day (t1 t2 : Timestamp) :
  date_ (derive_parts (Some t1)) = date_ (derive_parts (Some t2))
  <-> t1 / NS_PER_DAY = t2 / NS_PER_DAY.
Proof.
  cbn [derive_parts date_ option_map]. unfold dt_date, days_of. split.
  - intros Hsame.
    assert (Hdate : civil_of_days (t1 / NS_PER_DAY) = civil_of_days (t2 / NS_PER_DAY))
      by congruence.
    rewrite <- (days_of_civil_of_days (t1 / NS_PER_DAY)), Hdate.
    apply days_of_civil_of_days.
  - now intros ->.
Qed.



(** X7: [transform] neither drops, adds nor reorders rows and copies the
    raw columns unchanged: the table it writes has one row per raw row, in
    the same order, carrying that raw row; the raw table and the model
    file are left as they were. *)
Theorem transform_keeps_rows (w : World) (df : list RawRecord) :
  service_requests w = Some df ->
  exists out,
    service_requests_transformed (snd (transform w)) = Some out
    /\ map raw out = df
    /\ List.length out = List.length df
    /\ (forall i r, nth_error df i = Some r -> nth_error out i = Some (transform_row r))
    /\ service_requests (snd (transform w)) = Some df
    /\ time_to_close_model (snd (transform w)) = time_to_close_model w.
Proof.
  intros Hdf. exists (map transform_row df).
  unfold transform, read_sql_service_requests. rewrite Hdf. cbn.
  split; [reflexivity|]. split.
  - rewrite map_map. cbn. apply map_id.
  - split; [apply length_map|]. split; [|split; [exact Hdf|reflexivity]].
    intros i r Hi. now apply map_nth_error.
Qed.

Lemma transform_keeps_rows_witness :
  let w := world_with_snapshot five_tickets in
  exists out,
    service_requests_transformed (snd (transform w)) = Some out
    /\ map raw out = five_tickets
    /\ List.length out = List.length five_tickets
    /\ (forall i r, nth_error five_tickets i = Some r ->
                    nth_error out i = Some (transform_row r))
    /\ service_requests (snd (transform w)) = Some five_tickets
    /\ time_to_close_model (snd (transform w)) = time_to_close_model w.
Proof.
  cbv zeta.
  apply (@transform_keeps_rows (world_with_snapshot five_tickets) five_tickets).
  reflexivity.
Defined.

(** ** [train_model.py]: the encoder *)

Lemma ascii_compare_refl (a : ascii) : Ascii.compare a a = Eq.
Proof. apply N.compare_refl. Qed.

Lemma string_compare_refl (s : string) : String.compare s s = Eq.
Proof. induction s as [|a s IH]; [reflexivity|]. cbn. now rewrite ascii_compare_refl. Qed.

Lemma string_compare_lt_trans :
  forall a b c : string,
    String.compare a b = Lt -> String.compare b c = Lt -> String.compare a c = Lt.
Proof.
  induction a as [|x a IH]; intros [|y b] [|z c]; cbn; try congruence.
  unfold Ascii.compare.
  destruct (N.compare_spec (N_of_ascii x) (N_of_ascii y)) as [Hxy|Hxy|Hxy];
    destruct (N.compare_spec (N_of_ascii y) (N_of_ascii z)) as [Hyz|Hyz|Hyz];
    try congruence; intros Hab Hbc.
  - rewrite Hxy, Hyz, N.compare_refl. now apply IH with b.
  - rewrite Hxy. now apply N.compare_lt_iff in Hyz as ->.
  - rewrite <- Hyz. now apply N.compare_lt_iff in Hxy as ->.
  - assert (H : (N_of_ascii x < N_of_ascii z)%N) by lia.
    now apply N.compare_lt_iff in H as ->.
Qed.

Lemma string_lt_compare (x y : string) :
  (String.leb x y = true /\ x <> y) <-> String.compare x y = Lt.
Proof.
  unfold String.leb. split.
  - intros (Hle & Hne). destruct (String.compare x y) eqn:Hc; [|reflexivity|discriminate].
    apply String.compare_eq_iff in Hc. contradiction.
  - intros Hc. rewrite Hc. split; [reflexivity|].
    intros ->. rewrite string_compare_refl in Hc. discriminate.
Qed.

Lemma cell_lt_trans (a b c : cell) : cell_lt a b -> cell_lt b c -> cell_lt a c.
Proof.
  unfold cell_lt. destruct a as [x|], b as [y|], c as [z|]; cbn;
    try (intros (? & ?) (? & ?); (congruence || (split; [reflexivity|discriminate]))).
  intros (H1 & N1) (H2 & N2).
  assert (Hxy : String.compare x y = Lt) by (apply string_lt_compare; split; congruence).
  assert (Hyz : String.compare y z = Lt) by (apply string_lt_compare; split; congruence).
  pose proof (string_compare_lt_trans _ _ _ Hxy Hyz) as Hxz.
  apply string_lt_compare in Hxz. destruct Hxz as (Hle & Hne). split; congruence.
Qed.

Lemma cell_leb_total (a b : cell) : cell_leb a b = true \/ cell_leb b a = true.
Proof. destruct a as [x|], b as [y|]; cbn; auto. apply String.leb_total. Qed.

Lemma In_insert_sorted (v x : cell) (l : list cell) :
  In x (insert_sorted v l) <-> x = v \/ In x l.
Proof.
  induction l as [|c l IH]; cbn [insert_sorted].
  - cbn. intuition.
  - destruct (cell_eqb v c) eqn:Hvc.
    + apply cell_eqb_eq in Hvc. subst c. cbn. intuition.
    + destruct (cell_leb v c); cbn [In]; [intuition|]. rewrite IH. intuition.
Qed.

Lemma insert_sorted_sorted (v : cell) (l : list cell) :
  StronglySorted cell_lt l -> StronglySorted cell_lt (insert_sorted v l).
Proof.
  induction 1 as [|c l Hsorted IH Hall]; cbn [insert_sorted].
  - repeat constructor.
  - destruct (cell_eqb v c) eqn:Hvc; [now constructor|].
    assert (Hne : v <> c).
    { intros Heq. apply cell_eqb_eq in Heq. congruence. }
    destruct (cell_leb v c) eqn:Hle.
    + constructor; [now constructor|].
      constructor; [now split|].
      eapply Forall_impl; [|exact Hall]. intros x Hx.
      apply cell_lt_trans with c; [now split|exact Hx].
    + constructor; [exact IH|].
      apply Forall_forall. intros x Hx. apply In_insert_sorted in Hx.
      destruct Hx as [-> | Hx].
      * split; [|congruence]. destruct (cell_leb_total v c); congruence.
      * rewrite Forall_forall in Hall. now apply Hall.
Qed.

Lemma unique_sorted (column : list cell) : StronglySorted cell_lt (unique column).
Proof.
  induction column as [|a column IH]; [constructor|].
  unfold unique in *. cbn [fold_right]. now apply insert_sorted_sorted.
Qed.

Lemma In_unique (column : list cell) (v : cell) : In v (unique column) <-> In v column.
Proof.
  induction column as [|a column IH]; [reflexivity|].
  unfold unique in *. cbn [fold_right In]. rewrite In_insert_sorted, IH. intuition.
Qed.

Lemma sorted_NoDup (l : list cell) : StronglySorted cell_lt l -> NoDup l.
Proof.
  induction 1 as [|c l Hsorted IH Hall]; constructor; [|exact IH].
  intros Hin. rewrite Forall_forall in Hall. destruct (Hall c Hin) as (_ & Hne).
  now apply Hne.
Qed.

Lemma known_In (cats : list cell) (v : cell) : known cats v = true <-> In v cats.
Proof.
  unfold known. rewrite existsb_exists. split.
  - intros (c & Hc & Heq). apply cell_eqb_eq in Heq. now subst.
  - intros Hin. exists v. split; [exact Hin|]. now apply cell_eqb_eq.
Qed.

Lemma known_false (cats : list cell) (v : cell) : ~ In v cats -> known cats v = false.
Proof.
  intros Hnot. destruct (known cats v) eqn:Hk; [|reflexivity].
  apply known_In in Hk. contradiction.
Qed.

Lemma one_hot_length (cats : list cell) (v : cell) :
  List.length (one_hot cats v) = List.length cats.
Proof. apply length_map. Qed.

(** X8: a value among the categories sets exactly one indicator, the one
    at the position of its category, provided the categories are distinct. *)
Theorem one_hot_known (cats : list cell) (v : cell) :
  NoDup cats ->
  In v cats ->
  exists i,
    nth_error cats i = Some v
    /\ encode_column ignore cats v
       = Returned (repeat 0%Q i ++ 1%Q :: repeat 0%Q (List.length cats - S i))
    /\ encode_column error cats v = encode_column ignore cats v.
Proof.
  intros Hnodup Hin.
  assert (Hknown : known cats v = true) by now apply known_In.
  unfold encode_column. rewrite Hknown.
  enough (exists i, nth_error cats i = Some v
                    /\ one_hot cats v
                       = repeat 0%Q i ++ 1%Q :: repeat 0%Q (List.length cats - S i))
    as (i & Hi & Hvec) by (exists i; now rewrite Hvec).
  clear Hknown. induction Hnodup as [|c cats Hfresh Hnodup IH]; [contradiction|].
  destruct (cell_eqb c v) eqn:Hcv.
  - apply cell_eqb_eq in Hcv. subst c. exists 0%nat. split; [reflexivity|].
    unfold one_hot in *. cbn [map repeat app List.length Nat.sub].
    assert (Hvv : cell_eqb v v = true) by now apply cell_eqb_eq.
    rewrite Hvv, Nat.sub_0_r. f_equal.
    apply (one_hot_unknown cats v). now apply known_false.
  - destruct Hin as [-> | Hin].
    { assert (Hvv : cell_eqb v v = true) by now apply cell_eqb_eq. congruence. }
    destruct (IH Hin) as (i & Hi & Hvec). exists (S i). split; [exact Hi|].
    unfold one_hot in *. cbn [map repeat app List.length Nat.sub].
    now rewrite Hcv, Hvec.
Qed.

Lemma one_hot_known_witness :
  let cats := [Some "Graffiti"; Some "Pothole"; Some "Street Light"]%string in
  exists i,
    nth_error cats i = Some (Some "Pothole"%string)
    /\ encode_column ignore cats (Some "Pothole"%string)
       = Returned (repeat 0%Q i ++ 1%Q :: repeat 0%Q (List.length cats - S i))
    /\ encode_column error cats (Some "Pothole"%string)
       = encode_column ignore cats (Some "Pothole"%string).
Proof.
  cbv zeta.
  apply (@one_hot_known [Some "Graffiti"; Some "Pothole"; Some "Street Light"]%string
           (Some "Pothole"%string)).
  - repeat constructor; simpl; intuition discriminate.
  - simpl. tauto.
Defined.

Lemma encode_column_length (policy : unknown_policy) (cats : list cell) (v : cell)
      (block : list Q) :
  encode_column policy cats v = Returned block ->
  List.length block = List.length cats.
Proof.
  unfold encode_column.
  destruct (known cats v), policy; try discriminate;
    intros Hblock; injection Hblock as <-; apply one_hot_length.
Qed.

(** X9: every row the column transformer encodes has the same width,
    the number of issue categories plus the number of weekdays plus two,
    with month and hour in the last two places; a tree's feature index
    therefore addresses the same column at training and at prediction. *)
Theorem column_transform_width (enc : OneHotEncoder) (x : FeatureVector)
        (v : list (option Q)) :
  column_transform enc x = Returned v ->
  List.length v
  = (List.length (nth 0%nat (categories_ enc) [])
     + List.length (nth 1%nat (categories_ enc) []) + 2)%nat
  /\ nth (List.length v - 2) v None = option_map inject_Z (x_month x)
  /\ nth (List.length v - 1) v None = option_map inject_Z (x_hour x).
Proof.
  unfold column_transform. intros Hrun.
  apply bind_returned in Hrun. destruct Hrun as (c1 & Hc1 & Hrun).
  apply bind_returned in Hrun. destruct Hrun as (c2 & Hc2 & Hrun).
  injection Hrun as <-.
  apply encode_column_length in Hc1. apply encode_column_length in Hc2.
  assert (Hlen : List.length (map Some (c1 ++ c2)) = (List.length c1 + List.length c2)%nat)
    by now rewrite length_map, length_app.
  rewrite length_app, Hlen, <- Hc1, <- Hc2. cbn [List.length].
  split; [lia|]. split.
  - rewrite app_nth2 by lia.
    now replace (List.length c1 + List.length c2 + 2 - 2 - List.length (map Some (c1 ++ c2)))%nat
      with 0%nat by lia.
  - rewrite app_nth2 by lia.
    now replace (List.length c1 + List.length c2 + 2 - 1 - List.length (map Some (c1 ++ c2)))%nat
      with 1%nat by lia.
Qed.

Lemma column_transform_width_witness :
  let enc := {| handle_unknown := error;
                categories_ := [[Some "Graffiti"; Some "Pothole"]; [Some "Friday"]]%string |} in
  let x := X_pred "Pothole" "Friday" 3 9 in
  let v := [Some 0%Q; Some 1%Q; Some 1%Q; Some (inject_Z 3); Some (inject_Z 9)] in
  List.length v
  = (List.length (nth 0%nat (categories_ enc) [])
     + List.length (nth 1%nat (categories_ enc) []) + 2)%nat
  /\ nth (List.length v - 2) v None = option_map inject_Z (x_month x)
  /\ nth (List.length v - 1) v None = option_map inject_Z (x_hour x).
Proof.
  cbv zeta.
  apply (@column_transform_width
           {| handle_unknown := error;
              categories_ := [[Some "Graffiti"; Some "Pothole"]; [Some "Friday"]]%string |}
           (X_pred "Pothole" "Friday" 3 9)).
  reflexivity.
Defined.

(** X10: under [handle_unknown="ignore"] all unknown issue categories
    look alike: two requests whose categories are both outside the fitted
    ones and whose weekday, month and hour agree get the same encoding and
    the same prediction. *)
Theorem unknown_categories_predict_alike (model : Pipeline) (x x' : FeatureVector) :
  handle_unknown (preproc model) = ignore ->
  known (nth 0%nat (categories_ (preproc model)) []) (x_issue_category x) = false ->
  known (nth 0%nat (categories_ (preproc model)) []) (x_issue_category x') = false ->
  x_weekday x = x_weekday x' ->
  x_month x = x_month x' ->
  x_hour x = x_hour x' ->
  column_transform (preproc model) x = column_transform (preproc model) x'
  /\ predict model x = predict model x'.
Proof.
  intros Hpolicy Hx Hx' Hwd Hm Hh.
  assert (Henc : column_transform (preproc model) x = column_transform (preproc model) x').
  { unfold column_transform.
    rewrite Hpolicy, !encode_column_ignore, Hwd, Hm, Hh.
    now rewrite (one_hot_unknown _ _ Hx), (one_hot_unknown _ _ Hx'). }
  split; [exact Henc|]. unfold predict. now rewrite Henc.
Qed.




Lemma unknown_categories_predict_alike_witness :
  let x := X_pred "Sinkhole" "Friday" 3 9 in
  let x' := X_pred "Flooding" "Friday" 3 9 in
  column_transform (preproc sample_pipeline) x = column_transform (preproc sample_pipeline) x'
  /\ predict sample_pipeline x = predict sample_pipeline x'.
Proof.
  cbv zeta.
  apply (@unknown_categories_predict_alike sample_pipeline
           (X_pred "Sinkhole" "Friday" 3 9) (X_pred "Flooding" "Friday" 3 9));
    reflexivity.
Defined.


(** ** [train_model.py]: split, fit and dump *)

Lemma take_map {A B : Type} (f : A -> B) (idx : list nat) (l : list A) :
  take idx (map f l) = map f (take idx l).
Proof.
  unfold take. induction idx as [|i idx IH]; [reflexivity|].
  cbn [flat_map]. rewrite map_app, IH, nth_error_map.
  now destruct (nth_error l i).
Qed.

Lemma take_length {A : Type} (idx : list nat) (l : list A) :
  Forall (fun i => (i < List.length l)%nat) idx ->
  List.length (take idx l) = List.length idx.
Proof.
  unfold take. induction 1 as [|i idx Hi _ IH]; [reflexivity|].
  cbn [flat_map List.length]. rewrite length_app, IH.
  destruct (nth_error l i) eqn:Hnth; [reflexivity|].
  apply nth_error_None in Hnth. lia.
Qed.

Lemma map_outcome_total {A B : Type} (f : A -> outcome B) (l : list A) :
  (forall a, exists b, f a = Returned b) ->
  exists bs, map_outcome f l = Returned bs.
Proof.
  intros Hf. induction l as [|a l (bs & IH)]; [now exists []|].
  destruct (Hf a) as (b & Hb). exists (b :: bs).
  cbn [map_outcome]. now rewrite Hb, IH.
Qed.

(** X12: for a table the Transformer wrote, no missing value reaches the
    learner in the weekday, month, hour or target columns: every row of the
    training frame has a weekday name, a month in 1..12, an hour in 0..23
    and a numeric target.  (The issue category can still be missing.) *)
Theorem training_frame_has_no_missing_features (df : list RawRecord) (t : TransformedRecord) :
  In t (training_frame (map transform_row df)) ->
  exists wd m h target,
    x_weekday (features t) = Some wd /\ In wd day_names
    /\ x_month (features t) = Some m /\ 1 <= m <= 12
    /\ x_hour (features t) = Some h /\ 0 <= h <= 23
    /\ time_to_close_hours t = Some target
    /\ x_issue_category (features t) = issue_category (raw t).
Proof.
  rewrite training_frame_transformed. intros Hin.
  apply dropna_In in Hin. destruct Hin as (Hin & Hcreated & Hclosed).
  apply in_map_iff in Hin. destruct Hin as (r & <- & _).
  cbn in Hcreated, Hclosed.
  destruct (created r) as [c|] eqn:Hc; [|congruence].
  destruct (closed r) as [d|] eqn:Hd; [|congruence].
  pose proof (civil_of_days_range (days_of c)) as (Hm & _).
  pose proof (dt_hour_range c) as Hh.
  exists (dt_day_name c), (dt_month c), (dt_hour c),
    (Qmake (d - c) 1 / inject_Z NS_PER_HOUR)%Q.
  unfold features. cbn [transform_row created_parts raw timestamp_of time_to_close_hours].
  rewrite Hc, Hd. cbn [derive_parts weekday month hour option_map hours_between].
  repeat split; try apply Hm; try apply Hh. apply dt_day_name_In.
Qed.

Lemma training_frame_has_no_missing_features_witness :
  exists wd m h target,
    x_weekday (features (transform_row backdated_light)) = Some wd /\ In wd day_names
    /\ x_month (features (transform_row backdated_light)) = Some m /\ 1 <= m <= 12
    /\ x_hour (features (transform_row backdated_light)) = Some h /\ 0 <= h <= 23
    /\ time_to_close_hours (transform_row backdated_light) = Some target
    /\ x_issue_category (features (transform_row backdated_light))
       = issue_category (raw (transform_row backdated_light)).
Proof.
  apply (@training_frame_has_no_missing_features five_tickets (transform_row backdated_light)).
  vm_compute. tauto.
Defined.

Section TrainFurther.
Variable n_test_of : nat -> nat.
Variable permutation : nat -> list nat.
Variable fit_forest : list (list (option Q)) -> list (option Q) -> outcome RandomForestRegressor.

Hypothesis permutation_shuffles :
  forall n, Permutation (permutation n) (seq 0 n).

(** X13: the categories of a fitted encoder are, for each of the two
    columns, the values that occur in the training subset, NaN included:
    each once, strings in ascending order and NaN last.  A value of a row
    that went to the test subset only, or of an open ticket, is not among
    them. *)
Theorem fit_categories (X_train : list FeatureVector) (y_train : list (option Q))
        (model : Pipeline) :
  fit fit_forest X_train y_train = Returned model ->
  exists cats days,
    categories_ (preproc model) = [cats; days]
    /\ (forall v, In v cats <-> In v (map x_issue_category X_train))
    /\ (forall v, In v days <-> In v (map x_weekday X_train))
    /\ StronglySorted cell_lt cats /\ NoDup cats
    /\ StronglySorted cell_lt days /\ NoDup days.
Proof.
  intros Hfit. apply fit_encoder in Hfit. rewrite Hfit. cbn [categories_].
  exists (unique (map x_issue_category X_train)), (unique (map x_weekday X_train)).
  split; [reflexivity|].
  split; [intros v; apply In_unique|]. split; [intros v; apply In_unique|].
  repeat split; try apply unique_sorted; apply sorted_NoDup, unique_sorted.
Qed.

(** X14: one eligible row is not enough either: the split puts
    ceil(0.2 * 1) = 1 row in the test set, the training set would be
    empty, and the run ends in [train_test_split] with the same ValueError
    as for no row at all; no model is fitted or written. *)
Theorem train_model_single_row_refused (w : World) (table : list TransformedRecord) :
  n_test_of 1%nat = 1%nat ->
  service_requests_transformed w = Some table ->
  List.length (dropna table) = 1%nat ->
  train_model n_test_of permutation fit_forest w
  = (Raised (ValueError "the resulting train set will be empty"), w).
Proof.
  intros Hceil Htable Hone.
  unfold train_model, read_sql_transformed. rewrite Htable.
  unfold fit_and_score, train_test_split, X_of, training_frame.
  rewrite !length_map, Hone, Hceil. reflexivity.
Qed.

(** X15: the split keeps features and targets paired and deals every
    row exactly once: there are positions [train] and [test], together a
    rearrangement of all row positions, such that the training features and
    targets are those of the rows at [train] and the test features and
    targets those of the rows at [test]; the test subset has
    [n_test_of n] rows and the training subset the other [n - n_test_of n]. *)
Theorem train_test_split_paired (df : list TransformedRecord)
        X_train X_test y_train y_test :
  train_test_split n_test_of permutation (X_of df) (y_of df)
  = Returned (X_train, X_test, y_train, y_test) ->
  exists train test : list nat,
    Permutation (train ++ test) (seq 0 (List.length df))
    /\ NoDup (train ++ test)
    /\ X_train = X_of (take train df) /\ y_train = y_of (take train df)
    /\ X_test = X_of (take test df) /\ y_test = y_of (take test df)
    /\ List.length X_test = n_test_of (List.length df)
    /\ List.length X_train = (List.length df - n_test_of (List.length df))%nat
    /\ List.length y_train = List.length X_train
    /\ List.length y_test = List.length X_test.
Proof.
  unfold train_test_split, X_of, y_of. rewrite length_map.
  set (n := List.length df). set (n_test := n_test_of n).
  destruct (n - n_test =? 0)%nat eqn:Hempty; [discriminate|].
  apply Nat.eqb_neq in Hempty.
  intros Hsplit. injection Hsplit as <- <- <- <-.
  assert (Hn : List.length (permutation n) = n).
  { rewrite (Permutation_length (permutation_shuffles n)). apply length_seq. }
  assert (Htrain : firstn (n - n_test) (skipn n_test (permutation n))
                   = skipn n_test (permutation n)).
  { apply firstn_all2. rewrite length_skipn. lia. }
  rewrite Htrain.
  set (test := firstn n_test (permutation n)).
  set (train := skipn n_test (permutation n)).
  assert (Hperm : Permutation (train ++ test) (seq 0 n)).
  { etransitivity; [apply Permutation_app_comm|].
    subst test train. rewrite firstn_skipn. apply permutation_shuffles. }
  assert (Hbound : Forall (fun i => (i < List.length df)%nat) (train ++ test)).
  { apply Forall_forall. intros i Hi.
    apply (Permutation_in _ Hperm), in_seq in Hi. fold n. lia. }
  apply Forall_app in Hbound. destruct Hbound as (Hbtrain & Hbtest).
  assert (Hltest : List.length test = n_test)
    by (subst test; rewrite length_firstn; lia).
  assert (Hltrain : List.length train = (n - n_test)%nat)
    by (subst train; rewrite length_skipn; lia).
  exists train, test. rewrite !take_map, !length_map, !take_length by assumption.
  repeat split; try assumption; try reflexivity.
  apply (Permutation_NoDup (Permutation_sym Hperm)), seq_NoDup.
Qed.

Lemma train_model_succeeds_with (w : World) (table : list TransformedRecord) :
  service_requests_transformed w = Some table ->
  (n_test_of (List.length (dropna table)) < List.length (dropna table))%nat ->
  (forall Xt y, exists forest, fit_forest Xt y = Returned forest) ->
  exists model,
    train_model n_test_of permutation fit_forest w = (Returned tt, joblib_dump model w)
    /\ handle_unknown (preproc model) = ignore.
Proof.
  intros Htable Hrows Hlearner.
  unfold train_model, read_sql_transformed. rewrite Htable.
  unfold fit_and_score.
  destruct (train_test_split n_test_of permutation (X_of (training_frame table))
                             (y_of (training_frame table)))
    as [[[[X_train X_test] y_train] y_test]|e] eqn:Hsplit.
  - cbn [bind]. unfold fit.
    set (enc := {| handle_unknown := ignore;
                   categories_ := [unique (map x_issue_category X_train);
                                   unique (map x_weekday X_train)] |}).
    assert (Henc : forall x, exists v, column_transform enc x = Returned v).
    { intros x. unfold column_transform. cbn [handle_unknown enc].
      rewrite !encode_column_ignore. cbn [bind]. eauto. }
    destruct (map_outcome_total (column_transform enc) X_train Henc) as (Xt & ->).
    cbn [bind]. destruct (Hlearner Xt y_train) as (forest & ->). cbn [bind].
    set (model := {| preproc := enc; reg := forest |}).
    assert (Hpredict : forall x, exists q, predict model x = Returned q)
      by (intros x; now apply predict_ignore).
    unfold score.
    destruct (map_outcome_total (predict model) X_test Hpredict) as (preds & ->).
    cbn [bind]. exists model. split; reflexivity.
  - exfalso. unfold train_test_split, X_of, training_frame in Hsplit.
    rewrite !length_map in Hsplit.
    destruct (_ =? 0)%nat eqn:Hzero in Hsplit; [|discriminate].
    apply Nat.eqb_eq in Hzero. lia.
Qed.

(** X16: training succeeds whenever the split leaves at least one
    training row and the forest learner returns: encoding the training
    rows cannot raise, scoring the held-out rows cannot raise even when
    they carry categories the training rows lack, and the fitted pipeline
    is written to the model file.  Both tables are left as they were. *)
Theorem train_model_succeeds (w : World) (table : list TransformedRecord) :
  service_requests_transformed w = Some table ->
  (n_test_of (List.length (dropna table)) < List.length (dropna table))%nat ->
  (forall Xt y, exists forest, fit_forest Xt y = Returned forest) ->
  exists model,
    train_model n_test_of permutation fit_forest w = (Returned tt, joblib_dump model w)
    /\ handle_unknown (preproc model) = ignore
    /\ time_to_close_model (joblib_dump model w) = Some model
    /\ service_requests (joblib_dump model w) = service_requests w
    /\ service_requests_transformed (joblib_dump model w) = Some table.
Proof.
  intros Htable Hrows Hlearner.
  destruct (train_model_succeeds_with w Htable Hrows Hlearner) as (model & Hrun & Hpolicy).
  exists model. repeat split; assumption.
Qed.
End TrainFurther.

Lemma fit_categories_witness :
  let df := training_frame (map transform_row five_tickets) in
  exists model,
    fit stump_learner (X_of df) (y_of df) = Returned model
    /\ exists cats days,
        categories_ (preproc model) = [cats; days]
        /\ (forall v, In v cats <-> In v (map x_issue_category (X_of df)))
        /\ (forall v, In v days <-> In v (map x_weekday (X_of df)))
        /\ StronglySorted cell_lt cats /\ NoDup cats
        /\ StronglySorted cell_lt days /\ NoDup days.
Proof.
  cbv zeta. eexists. split; [vm_compute; reflexivity|].
  apply (@fit_categories stump_learner
           (X_of (training_frame (map transform_row five_tickets)))
           (y_of (training_frame (map transform_row five_tickets)))).
  vm_compute. reflexivity.
Defined.

Lemma train_model_single_row_refused_witness :
  let w := world_with_transformed (map transform_row [closed_pothole; open_graffiti]) in
  train_model exact_n_test reversed stump_learner w
  = (Raised (ValueError "the resulting train set will be empty"), w).
Proof.
  cbv zeta.
  apply (@train_model_single_row_refused exact_n_test reversed stump_learner
           (world_with_transformed (map transform_row [closed_pothole; open_graffiti]))
           (map transform_row [closed_pothole; open_graffiti]));
    reflexivity.
Defined.

Lemma train_test_split_paired_witness :
  let df := training_frame (map transform_row ten_tickets) in
  exists X_train X_test y_train y_test,
    train_test_split exact_n_test reversed (X_of df) (y_of df)
    = Returned (X_train, X_test, y_train, y_test)
    /\ exists train test : list nat,
        Permutation (train ++ test) (seq 0 (List.length df))
        /\ NoDup (train ++ test)
        /\ X_train = X_of (take train df) /\ y_train = y_of (take train df)
        /\ X_test = X_of (take test df) /\ y_test = y_of (take test df)
        /\ List.length X_test = exact_n_test (List.length df)
        /\ List.length X_train = (List.length df - exact_n_test (List.length df))%nat
        /\ List.length y_train = List.length X_train
        /\ List.length y_test = List.length X_test.
Proof.
  cbv zeta. do 4 eexists. split; [vm_compute; reflexivity|].
  apply (@train_test_split_paired exact_n_test reversed reversed_shuffles
           (training_frame (map transform_row ten_tickets))).
  vm_compute. reflexivity.
Defined.

Lemma train_model_succeeds_witness :
  let table := map transform_row five_tickets in
  let w := world_with_transformed table in
  exists model,
    train_model exact_n_test reversed stump_learner w = (Returned tt, joblib_dump model w)
    /\ handle_unknown (preproc model) = ignore
    /\ time_to_close_model (joblib_dump model w) = Some model
    /\ service_requests (joblib_dump model w) = service_requests w
    /\ service_requests_transformed (joblib_dump model w) = Some table.
Proof.
  cbv zeta.
  apply (@train_model_succeeds exact_n_test reversed stump_learner
           (world_with_transformed (map transform_row five_tickets))
           (map transform_row five_tickets)).
  - reflexivity.
  - apply Nat.ltb_lt. vm_compute. reflexivity.
  - intros Xt y. eexists. reflexivity.
Defined.

(** ** [prefect_flow.py] *)

Lemma world_eta (w : World) :
  {| service_requests := service_requests w;
     service_requests_transformed := service_requests_transformed w;
     time_to_close_model := time_to_close_model w |} = w.
Proof. now destruct w. Qed.

Section FlowProperties.
Variable n_test_of : nat -> nat.
Variable permutation : nat -> list nat.
Variable fit_forest : list (list (option Q)) -> list (option Q) -> outcome RandomForestRegressor.

(** X17: how a flow run can end.  Either the extraction command failed
    and nothing at all was changed, so that an older transformed table and
    model stay in place; or the raw table holds a non-empty fresh
    snapshot, the transformed table is the transform of exactly that
    snapshot, and training either completed and wrote a model or failed and
    left the old model file beside the new tables.  The transform command
    never fails inside the flow. *)
Theorem etl_flow_outcomes (fuel : nat) (read_csv : Source) (w w' : World)
        (state : task_run) :
  etl_flow n_test_of permutation fit_forest fuel read_csv w = Some (state, w') ->
  (exists e, state = CommandFailed "python extract.py" e /\ w' = w)
  \/ (exists df,
        df <> []
        /\ service_requests w' = Some df
        /\ service_requests_transformed w' = Some (map transform_row df)
        /\ ((state = Succeeded /\ exists model, time_to_close_model w' = Some model)
            \/ (exists e, state = CommandFailed "python train_model.py" e
                          /\ time_to_close_model w' = time_to_close_model w))).
Proof.
  unfold etl_flow, extract_data. intros Hrun.
  destruct (extract_all_csv fuel read_csv w) as [[[u|e] w1]|] eqn:Hextract;
    cbn in Hrun; [| |discriminate].
  - destruct u.
    destruct (extract_all_returned _ _ _ _ Hextract)
      as (pages & _ & _ & _ & Hraw & Hne & Htab & Hmodel).
    right. exists (List.concat pages). split; [exact Hne|].
    unfold transform_data, transform, read_sql_service_requests in Hrun.
    rewrite Hraw in Hrun. cbn in Hrun.
    unfold train_model_task, train_model, read_sql_transformed in Hrun.
    cbn in Hrun.
    destruct (fit_and_score _ _ _ _) as [model|e]; cbn in Hrun;
      injection Hrun as <- <-; cbn; rewrite ?Hraw.
    + repeat split. left. eauto.
    + repeat split. right. eauto.
  - injection Hrun as <- <-. left. exists e. split; [reflexivity|].
    now apply extract_all_raised_keeps_world in Hextract.
Qed.

(** X18: the flow can be run again: on an endpoint that serves the same
    pages, a second run started from the world the first one left ends in
    the same state and leaves that world exactly as it found it, the
    failed runs included. *)
Theorem etl_flow_idempotent (fuel : nat) (read_csv : Source) (w w' : World)
        (state : task_run) :
  etl_flow n_test_of permutation fit_forest fuel read_csv w = Some (state, w') ->
  etl_flow n_test_of permutation fit_forest fuel read_csv w' = Some (state, w').
Proof.
  unfold etl_flow, extract_data, extract_all_csv, extract_all.
  destruct (fetch_pages fuel PAGE_SIZE read_csv 0%N []) as [[chunks|e]|];
    [| |discriminate].
  - destruct (pd_concat chunks) as [df|e]; cbn.
    + unfold train_model_task, train_model. cbn.
      destruct (fit_and_score _ _ _ _) as [model|e] eqn:Hfit; cbn;
        intros Hrun; injection Hrun as <- <-; reflexivity.
    + intros Hrun. injection Hrun as <- <-. reflexivity.
  - cbn. intros Hrun. injection Hrun as <- <-. reflexivity.
Qed.

(** X19: end to end.  From a well-behaved endpoint over a non-empty
    record set, with enough requests allowed, a split that leaves a
    training row and a learner that returns, the flow completes: the raw
    table is the record set, the transformed table its transform row by
    row, and the model file holds a pipeline whose encoder ignores unknown
    values. *)
Theorem etl_flow_completes (records : list RawRecord) (k fuel : nat) (w : World) :
  records <> [] ->
  (List.length records <= k * N.to_nat PAGE_SIZE)%nat ->
  (k < fuel)%nat ->
  (n_test_of (List.length (dropna (map transform_row records)))
   < List.length (dropna (map transform_row records)))%nat ->
  (forall Xt y, exists forest, fit_forest Xt y = Returned forest) ->
  exists w' model,
    etl_flow n_test_of permutation fit_forest fuel (soda_endpoint records) w
    = Some (Succeeded, w')
    /\ service_requests w' = Some records
    /\ service_requests_transformed w' = Some (map transform_row records)
    /\ time_to_close_model w' = Some model
    /\ handle_unknown (preproc model) = ignore.
Proof.
  intros Hne Hlen Hfuel Hrows Hlearner.
  unfold etl_flow, extract_data, extract_all_csv.
  rewrite (extract_all_complete (page_size := PAGE_SIZE) (k := k) w eq_refl Hne Hlen Hfuel).
  cbn [option_map ShellOperation]. unfold transform_data, transform. cbn.
  set (w2 := to_sql_transformed (map transform_row records)
                                (to_sql_service_requests records w)).
  destruct (@train_model_succeeds_with n_test_of permutation fit_forest w2
              (map transform_row records) eq_refl Hrows Hlearner)
    as (model & Hrun & Hpolicy).
  exists (joblib_dump model w2), model.
  unfold train_model_task. rewrite Hrun. cbn. auto.
Qed.
End FlowProperties.

(** A flow run over a source with a single closed ticket: the tables are
    renewed, training is refused, the earlier model stays. *)
Lemma etl_flow_outcomes_witness :
  let source := soda_endpoint [closed_pothole; open_graffiti] in
  exists state w',
    etl_flow exact_n_test reversed stump_learner 2 source earlier_world = Some (state, w')
    /\ ((exists e, state = CommandFailed "python extract.py" e /\ w' = earlier_world)
        \/ (exists df,
              df <> []
              /\ service_requests w' = Some df
              /\ service_requests_transformed w' = Some (map transform_row df)
              /\ ((state = Succeeded /\ exists model, time_to_close_model w' = Some model)
                  \/ (exists e, state = CommandFailed "python train_model.py" e
                                /\ time_to_close_model w'
                                   = time_to_close_model earlier_world)))).
Proof.
  cbv zeta. do 2 eexists. split; [vm_compute; reflexivity|].
  apply (@etl_flow_outcomes exact_n_test reversed stump_learner 2
           (soda_endpoint [closed_pothole; open_graffiti]) earlier_world).
  vm_compute. reflexivity.
Defined.

Example etl_flow_keeps_earlier_model :
  option_map (fun run => (fst run, time_to_close_model (snd run),
                          service_requests (snd run)))
             (etl_flow exact_n_test reversed stump_learner 2
                       (soda_endpoint [closed_pothole; open_graffiti]) earlier_world)
  = Some (CommandFailed "python train_model.py"
                        (ValueError "the resulting train set will be empty"),
          Some sample_pipeline,
          Some [closed_pothole; open_graffiti]).
Proof. vm_compute. reflexivity. Qed.

Lemma etl_flow_idempotent_witness :
  exists state w',
    etl_flow exact_n_test reversed stump_learner 2 (soda_endpoint five_tickets) earlier_world
    = Some (state, w')
    /\ etl_flow exact_n_test reversed stump_learner 2 (soda_endpoint five_tickets) w'
       = Some (state, w').
Proof.
  do 2 eexists. split; [vm_compute; reflexivity|].
  apply (@etl_flow_idempotent exact_n_test reversed stump_learner 2
           (soda_endpoint five_tickets) earlier_world).
  vm_compute. reflexivity.
Defined.

Lemma etl_flow_completes_witness :
  exists w' model,
    etl_flow exact_n_test reversed stump_learner 2 (soda_endpoint five_tickets) fresh_world
    = Some (Succeeded, w')
    /\ service_requests w' = Some five_tickets
    /\ service_requests_transformed w' = Some (map transform_row five_tickets)
    /\ time_to_close_model w' = Some model
    /\ handle_unknown (preproc model) = ignore.
Proof.
  apply (@etl_flow_completes exact_n_test reversed stump_learner five_tickets 1 2 fresh_world).
  - discriminate.
  - apply Nat.leb_le. vm_compute. reflexivity.
  - lia.
  - apply Nat.ltb_lt. vm_compute. reflexivity.
  - intros Xt y. eexists. reflexivity.
Defined.

(** ** [app.py] *)

Lemma date_leb_key (a b : Z * Z * Z) :
  1 <= snd (fst a) <= 12 -> 1 <= snd a <= 31 ->
  1 <= snd (fst b) <= 12 -> 1 <= snd b <= 31 ->
  date_leb a b = true <-> date_key a <= date_key b.
Proof.
  destruct a as [[y m] d], b as [[y' m'] d']. cbn [fst snd].
  intros Hm Hd Hm' Hd'. unfold date_leb, date_cmp, date_key.
  destruct (Z.compare_spec y y'); [destruct (Z.compare_spec m m');
    [destruct (Z.compare_spec d d')|..]|..]; split; intros; try reflexivity; try discriminate; lia.
Qed.

Lemma year_of_era_mono (a b : Z) :
  0 <= a <= b -> b < 146097 -> year_of_era a <= year_of_era b.
Proof.
  intros H1 H2. unfold year_of_era.
  apply Z.div_le_mono; [lia|]. Z.div_mod_to_equations; lia.
Qed.

Lemma date_key_civil (days : Z) :
  let z := days + 719468 in
  let era := z / 146097 in
  let doe := z - era * 146097 in
  let yoe := year_of_era doe in
  let doy := doe - (365 * yoe + yoe / 4 - yoe / 100) in
  let mp := (5 * doy + 2) / 153 in
  let d := doy - (153 * mp + 2) / 5 + 1 in
  date_key (civil_of_days days) = ((yoe + era * 400) * 12 + mp + 3) * 32 + d.
Proof.
  cbv zeta. unfold civil_of_days, year_of_era, date_key. cbv zeta.
  set (mp := (5 * _ + 2) / 153).
  assert (Hmp : 0 <= mp <= 11).
  { subst mp. pose proof (day_of_era_range (days + 719468)) as Hdoe.
    set (doe := days + 719468 - (days + 719468) / 146097 * 146097) in *.
    clearbody doe. Z.div_mod_to_equations; lia. }
  destruct (mp <? 10) eqn:Hlt; [apply Z.ltb_lt in Hlt|apply Z.ltb_ge in Hlt].
  - destruct (mp + 3 <=? 2) eqn:H2; [apply Z.leb_le in H2; lia|]. lia.
  - destruct (mp - 9 <=? 2) eqn:H2; [|apply Z.leb_gt in H2; lia]. lia.
Qed.

Lemma date_key_mono (a b : Z) :
  a < b -> date_key (civil_of_days a) < date_key (civil_of_days b).
Proof.
  intros Hab. rewrite !date_key_civil. cbv zeta.
  pose proof (day_of_era_range (a + 719468)) as Hda.
  pose proof (day_of_era_range (b + 719468)) as Hdb.
  assert (Hera : (a + 719468) / 146097 <= (b + 719468) / 146097)
    by (apply Z.div_le_mono; lia).
  set (ea := (a + 719468) / 146097) in *. set (eb := (b + 719468) / 146097) in *.
  set (da := a + 719468 - ea * 146097) in *. set (db := b + 719468 - eb * 146097) in *.
  assert (Hdoe : ea = eb -> da < db) by (subst da db; lia).
  assert (Hy : da <= db -> year_of_era da <= year_of_era db)
    by (intros; apply year_of_era_mono; lia).
  assert (Hya : 0 <= year_of_era da <= 399) by (unfold year_of_era; Z.div_mod_to_equations; lia).
  assert (Hyb : 0 <= year_of_era db <= 399) by (unfold year_of_era; Z.div_mod_to_equations; lia).
  assert (Hdya : 0 <= da - (365 * year_of_era da + year_of_era da / 4 - year_of_era da / 100) <= 365)
    by (unfold year_of_era; Z.div_mod_to_equations; lia).
  assert (Hdyb : 0 <= db - (365 * year_of_era db + year_of_era db / 4 - year_of_era db / 100) <= 365)
    by (unfold year_of_era; Z.div_mod_to_equations; lia).
  clearbody da db ea eb.
  set (ya := year_of_era da) in *. set (yb := year_of_era db) in *.
  assert (Hys : ya = yb -> 365 * ya + ya / 4 - ya / 100 = 365 * yb + yb / 4 - yb / 100)
    by (intros ->; reflexivity).
  clearbody ya yb.
  set (doya := da - (365 * ya + ya / 4 - ya / 100)) in *.
  set (doyb := db - (365 * yb + yb / 4 - yb / 100)) in *.
  assert (Hdoy : ea = eb -> ya = yb -> doya < doyb) by (subst doya doyb; lia).
  clearbody doya doyb.
  assert (Hmp : doya <= doyb -> (5 * doya + 2) / 153 <= (5 * doyb + 2) / 153)
    by (intros; apply Z.div_le_mono; lia).
  assert (Hma : 0 <= (5 * doya + 2) / 153 <= 11) by (Z.div_mod_to_equations; lia).
  assert (Hmb : 0 <= (5 * doyb + 2) / 153 <= 11) by (Z.div_mod_to_equations; lia).
  assert (Hda' : 1 <= doya - (153 * ((5 * doya + 2) / 153) + 2) / 5 + 1 <= 31)
    by (Z.div_mod_to_equations; lia).
  assert (Hdb' : 1 <= doyb - (153 * ((5 * doyb + 2) / 153) + 2) / 5 + 1 <= 31)
    by (Z.div_mod_to_equations; lia).
  set (ma := (5 * doya + 2) / 153) in *. set (mb := (5 * doyb + 2) / 153) in *.
  assert (Hg : ma = mb -> (153 * ma + 2) / 5 = (153 * mb + 2) / 5) by (intros ->; reflexivity).
  clearbody ma mb.
  set (ga := (153 * ma + 2) / 5) in *. set (gb := (153 * mb + 2) / 5) in *.
  clearbody ga gb.
  lia.
Qed.

Lemma date_leb_civil (a b : Z) :
  date_leb (civil_of_days a) (civil_of_days b) = true <-> a <= b.
Proof.
  pose proof (civil_of_days_range a) as (Hma & Hda).
  pose proof (civil_of_days_range b) as (Hmb & Hdb).
  rewrite date_leb_key by assumption. split.
  - intros Hkey. destruct (Z.lt_ge_cases b a) as [Hlt|]; [|lia].
    apply date_key_mono in Hlt. lia.
  - intros Hle. destruct (Z.eq_dec a b) as [->|Hne]; [lia|].
    assert (Hlt : a < b) by lia. apply date_key_mono in Hlt. lia.
Qed.

Lemma isin_In (values : list string) (c : cell) :
  isin values c = true <-> exists s, c = Some s /\ In s values.
Proof.
  destruct c as [s|]; cbn [isin].
  - rewrite existsb_exists. split.
    + intros (v & Hv & Heq). apply String.eqb_eq in Heq. subst. eauto.
    + intros (v & Hv & Hin). injection Hv as <-. exists s. split; [exact Hin|].
      apply String.eqb_refl.
  - split; [discriminate|]. now intros (s & Hs & _).
Qed.

(** X20: the date and status filter.  For a start day [s] and an end
    day [e] picked in the sidebar, nothing but an error is shown when [e]
    is before [s]; otherwise the rows shown are exactly the rows of the
    table that have a creation timestamp falling on a day from [s] to [e]
    inclusive and a status that is one of the selected ones.  A row with
    no creation timestamp or no status is shown under no choice of
    filters. *)
Theorem filtered_rows (df : list TransformedRecord) (s e : Z)
        (selected_status : list string) :
  match filtered df (civil_of_days s) (civil_of_days e) selected_status with
  | None => e < s
  | Some rows =>
      s <= e
      /\ forall t, In t rows
                   <-> In t df
                       /\ exists c status,
                           created (raw t) = Some c
                           /\ s <= c / NS_PER_DAY <= e
                           /\ ticket_status (raw t) = Some status
                           /\ In status selected_status
  end.
Proof.
  unfold filtered.
  pose proof (date_leb_civil s e) as Horder. unfold date_leb in Horder.
  assert (Hrows : forall t,
             In t (filter (fun t => mask_date (civil_of_days s) (civil_of_days e) t
                                    && mask_status selected_status t) df)
             <-> In t df
                 /\ exists c status,
                     created (raw t) = Some c
                     /\ s <= c / NS_PER_DAY <= e
                     /\ ticket_status (raw t) = Some status
                     /\ In status selected_status).
  { intros t. rewrite filter_In, andb_true_iff. unfold mask_date, mask_status.
    rewrite isin_In. split.
    - intros (Hin & Hdate & status & Hstatus & Hsel). split; [exact Hin|].
      destruct (created (raw t)) as [c|]; [|discriminate].
      apply andb_true_iff in Hdate. destruct Hdate as (H1 & H2).
      apply date_leb_civil in H1. apply date_leb_civil in H2.
      exists c, status. unfold days_of in *. auto.
    - intros (Hin & c & status & Hc & Hdays & Hstatus & Hsel). split; [exact Hin|].
      rewrite Hc. split; [|eauto].
      apply andb_true_iff. split; apply date_leb_civil; unfold days_of; lia. }
  destruct (date_cmp (civil_of_days s) (civil_of_days e)).
  - split; [now apply Horder|exact Hrows].
  - split; [now apply Horder|exact Hrows].
  - destruct (Z.lt_ge_cases e s) as [Hlt|Hge]; [exact Hlt|].
    apply Horder in Hge. discriminate.
Qed.

Lemma index_spec (x : string) (l : list string) :
  match index x l with
  | Returned i => nth_error l i = Some x
  | Raised e => e = not_in_list x /\ ~ In x l
  end.
Proof.
  induction l as [|a l IH]; cbn [index]; [split; [reflexivity|intros []]|].
  destruct (String.eqb a x) eqn:Hax.
  - apply String.eqb_eq in Hax. now subst.
  - apply String.eqb_neq in Hax.
    destruct (index x l) as [i|e]; cbn [bind nth_error]; [exact IH|].
    destruct IH as (He & Hnot). split; [exact He|]. intros [Heq | Hin]; auto.
Qed.

Lemma In_strings (column : list cell) (x : string) :
  In x (strings column) <-> In (Some x) column.
Proof.
  unfold strings. rewrite in_flat_map. split.
  - intros ([s|] & Hin & Hx); [|contradiction].
    destruct Hx as [-> | []]. exact Hin.
  - intros Hin. exists (Some x). split; [exact Hin|now left].
Qed.

Lemma In_category_options (df : list TransformedRecord) (x : string) :
  In x (category_options df)
  <-> exists t, In t df /\ issue_category (raw t) = Some x.
Proof.
  unfold category_options. rewrite In_strings, In_unique, filter_In, in_map_iff.
  split.
  - intros ((t & Ht & Hin) & _). eauto.
  - intros (t & Hin & Ht). split; [eauto|reflexivity].
Qed.

(** X21: the category select box.  Its options are the issue categories
    that occur in the table, missing ones left out; the page asks for the
    position of "Missed Recycling Pickup" among them as the default, so on
    a table with no ticket of that category the lookup raises ValueError
    and the page is not drawn; otherwise the position returned is that of
    this category. *)
Theorem pred_cat_index_spec (df : list TransformedRecord) :
  (forall x, In x (category_options df)
             <-> exists t, In t df /\ issue_category (raw t) = Some x)
  /\ match pred_cat_index df with
     | Returned i =>
         nth_error (category_options df) i = Some "Missed Recycling Pickup"%string
         /\ exists t, In t df
                      /\ issue_category (raw t) = Some "Missed Recycling Pickup"%string
     | Raised e =>
         e = ValueError "'Missed Recycling Pickup' is not in list"
         /\ forall t, In t df ->
                      issue_category (raw t) <> Some "Missed Recycling Pickup"%string
     end.
Proof.
  split; [intros x; apply In_category_options|].
  unfold pred_cat_index.
  pose proof (index_spec "Missed Recycling Pickup" (category_options df)) as Hspec.
  destruct (index _ _) as [i|e].
  - split; [exact Hspec|]. apply In_category_options.
    eapply nth_error_In; exact Hspec.
  - destruct Hspec as (He & Hnot). split; [exact He|].
    intros t Hin Hcat. apply Hnot, In_category_options. eauto.
Qed.

Example pred_cat_index_of_five :
  category_options (map transform_row five_tickets)
  = ["Graffiti"; "Missed Recycling Pickup"; "Noise"; "Pothole"; "Street Light"]%string
  /\ pred_cat_index (map transform_row five_tickets) = Returned 1%nat
  /\ pred_cat_index (map transform_row [closed_pothole; open_graffiti])
     = Raised (ValueError "'Missed Recycling Pickup' is not in list").
Proof. vm_compute. repeat split. Qed.

(** Tickets created from 14 to 15 March 2025 with status Open: of three
    rows created on the 14th, the one whose status is Open. *)
Example filtered_open_tickets :
  let df := map transform_row
                [ticket_with_status closed_pothole "Closed";
                 ticket_with_status open_graffiti "Open";
                 ticket_with_status undated_noise "Open";
                 ticket_with_status closed_pickup "Acknowledged"] in
  filtered df (2025, 3, 14) (2025, 3, 15) ["Open"]%string
  = Some [transform_row (ticket_with_status open_graffiti "Open")]
  /\ filtered df (2025, 3, 15) (2025, 3, 14) ["Open"]%string = None
  /\ civil_of_days 20161 = (2025, 3, 14).
Proof. vm_compute. repeat split. Qed.
